(** * The code-analysis MCP server of [dist/examples/mcp/analyzer.py]

    A shallow embedding of the example server: the [CodeAnalyzer] class,
    [handle_request] and the read/dispatch/write loop of [main], with
    the theorems that settle the specification's claims about them.

    Python text is a [string] holding its UTF-8 bytes, a Python object
    that can reach the server is a [value], a raised exception is the
    [Raise] case of an [outcome], and the standard streams are the
    [process] record that [main] threads through its loop. *)

From Stdlib Require Import ZArith List String Ascii Bool Lia.
From Stdlib Require Import PrimFloat SpecFloat FloatOps DecimalString.
Import ListNotations.

Open Scope list_scope.
Open Scope string_scope.

#[local] Set Warnings "-register-all".

(** ** Python objects *)

(** The objects [json.loads] builds, which are also all the objects the
    server itself builds.  A [dict] keeps its items in insertion order,
    as Python's does; its keys are always [str] here. *)
Inductive value : Type :=
| VNone
| VBool (b : bool)
| VInt (n : Z)
| VFloat (f : float)
| VStr (s : string)
| VList (xs : list value)
| VDict (items : list (string * value)).

Definition dict : Type := list (string * value).

(** [type(v).__name__] *)
Definition type_name (v : value) : string :=
  match v with
  | VNone => "NoneType"
  | VBool _ => "bool"
  | VInt _ => "int"
  | VFloat _ => "float"
  | VStr _ => "str"
  | VList _ => "list"
  | VDict _ => "dict"
  end.

Definition is_dict (v : value) : bool :=
  match v with VDict _ => true | _ => false end.

(** [v == s] for a [str] literal [s]: an object of another type never
    equals a string. *)
Definition py_eq_str (v : value) (s : string) : bool :=
  match v with
  | VStr t => String.eqb t s
  | _ => false
  end.

(** Item lookup in a [dict]. *)
Fixpoint dict_lookup {A : Type} (d : list (string * A)) (key : string) : option A :=
  match d with
  | [] => None
  | (k, v) :: rest => if String.eqb k key then Some v else dict_lookup rest key
  end.

(** [d.get(key, default)] on a [dict] *)
Definition dict_get {A : Type} (d : list (string * A)) (key : string) (default : A) : A :=
  match dict_lookup d key with
  | Some v => v
  | None => default
  end.

(** [key in d] *)
Definition dict_has {A : Type} (d : list (string * A)) (key : string) : bool :=
  match dict_lookup d key with
  | Some _ => true
  | None => false
  end.

(** ** Exceptions *)

(** The exceptions that can be raised inside the loop's [try].  Each
    carries [str(e)].  All are subclasses of [Exception]; only the
    first is a [json.JSONDecodeError]. *)
Inductive exn : Type :=
| JSONDecodeError (msg : string)
| AttributeError (msg : string)
| OtherException (name msg : string).

(** [str(e)] *)
Definition exn_str (e : exn) : string :=
  match e with
  | JSONDecodeError msg => msg
  | AttributeError msg => msg
  | OtherException _ msg => msg
  end.

(** [isinstance(e, json.JSONDecodeError)] *)
Definition is_JSONDecodeError (e : exn) : bool :=
  match e with
  | JSONDecodeError _ => true
  | _ => false
  end.

(** A computation that returns or raises. *)
Inductive outcome (A : Type) : Type :=
| Return (a : A)
| Raise (e : exn).

Arguments Return {A} a.
Arguments Raise {A} e.

Definition bind {A B : Type} (c : outcome A) (k : A -> outcome B) : outcome B :=
  match c with
  | Return a => k a
  | Raise e => Raise e
  end.

Declare Scope py_scope.
Delimit Scope py_scope with py.
Notation "x <- c ;; k" := (bind c (fun x => k))
  (at level 61, c at next level, right associativity) : py_scope.

(** [obj.get(key, default)] on an arbitrary object: only a [dict] has
    the attribute. *)
Definition py_get (obj : value) (key : string) (default : value) : outcome value :=
  match obj with
  | VDict d => Return (dict_get d key default)
  | _ => Raise (AttributeError
                  ("'" ++ type_name obj ++ "' object has no attribute 'get'"))
  end.

(** ** The Python runtime *)

(** The library functions the server calls and this development does
    not define: the JSON decoder, and the [repr] of floats and of
    strings. *)
Record runtime : Type := {
  json_loads : string -> outcome value;
  float_repr : float -> string;
  str_repr : string -> string
}.

(** [int.__repr__] *)
Definition int_repr (n : Z) : string := NilZero.string_of_int (Z.to_int n).

(** ["".join(parts)] *)
Fixpoint join_all (parts : list string) : string :=
  match parts with
  | [] => ""
  | p :: rest => p ++ join_all rest
  end.

(** [", ".join(parts)] *)
Fixpoint join_comma (parts : list string) : string :=
  match parts with
  | [] => ""
  | [p] => p
  | p :: rest => p ++ ", " ++ join_comma rest
  end.

Section Repr.

Variable py : runtime.

(** [repr(v)] *)
Fixpoint py_repr (v : value) : string :=
  match v with
  | VNone => "None"
  | VBool true => "True"
  | VBool false => "False"
  | VInt n => int_repr n
  | VFloat f => float_repr py f
  | VStr s => str_repr py s
  | VList xs => "[" ++ join_comma (map py_repr xs) ++ "]"
  | VDict items =>
      "{" ++ join_comma
               (map (fun kv => str_repr py (fst kv) ++ ": " ++ py_repr (snd kv)) items)
          ++ "}"
  end.

(** [str(v)], which is what an f-string field [{v}] formats to: the
    string itself for a [str], [repr(v)] for everything else. *)
Definition py_str (v : value) : string :=
  match v with
  | VStr s => s
  | _ => py_repr v
  end.

End Repr.

(** ** [class CodeAnalyzer] *)

Record CodeAnalyzer : Type := { analysis_level : string }.

(** [os.environ], a mapping from names to strings. *)
Definition environment : Type := list (string * string).

(** [CodeAnalyzer.__init__] *)
Definition CodeAnalyzer_init (environ : environment) : CodeAnalyzer :=
  {| analysis_level := dict_get environ "ANALYSIS_LEVEL" "basic" |}.

Section Analyzer.

Variable py : runtime.

Definition analyze_complexity (self : CodeAnalyzer) (file_path : value) : value :=
  VDict [ ("file", file_path);
          ("complexity", VDict [ ("cyclomatic", VInt 5);
                                 ("cognitive", VInt 8);
                                 ("lines_of_code", VInt 150);
                                 ("functions", VInt 10) ]);
          ("level", VStr (analysis_level self)) ].

Definition find_patterns (self : CodeAnalyzer) (file_path : value) : value :=
  VList [ VDict [ ("pattern", VStr "singleton");
                  ("location", VStr (py_str py file_path ++ ":45"));
                  ("type", VStr "design_pattern") ];
          VDict [ ("pattern", VStr "god_object");
                  ("location", VStr (py_str py file_path ++ ":120"));
                  ("type", VStr "anti_pattern");
                  ("severity", VStr "warning") ] ].

Definition suggest_refactoring (self : CodeAnalyzer) (file_path : value) : value :=
  VList [ VStr "Consider extracting method at line 45-60";
          VStr "Duplicate code detected at lines 120 and 180";
          VStr "Complex conditional at line 95 could be simplified" ].

(** ** [handle_request] *)

Definition handle_request (environ : environment) (request : value) : outcome value :=
  (let analyzer := CodeAnalyzer_init environ in
   method <- py_get request "method" VNone ;;
   params <- py_get request "params" (VDict []) ;;
   result <-
     (if py_eq_str method "analyze_complexity" then
        file_path <- py_get params "file" VNone ;;
        Return (analyze_complexity analyzer file_path)
      else if py_eq_str method "find_patterns" then
        file_path <- py_get params "file" VNone ;;
        Return (find_patterns analyzer file_path)
      else if py_eq_str method "suggest_refactoring" then
        file_path <- py_get params "file" VNone ;;
        Return (suggest_refactoring analyzer file_path)
      else
        Return (VDict [ ("error", VStr ("Unknown method: " ++ py_str py method)) ])) ;;
   id <- py_get request "id" VNone ;;
   Return (VDict [ ("jsonrpc", VStr "2.0");
                   ("id", id);
                   ("result", result) ]))%py.

End Analyzer.

(** ** [json.dumps] *)

Definition newline : ascii := "010"%char.
Definition dquote : ascii := "034"%char.
Definition backslash : ascii := "092"%char.

(** One lowercase hexadecimal digit. *)
Definition hex_digit (n : N) : ascii :=
  ascii_of_N (if (n <? 10)%N then 48 + n else 87 + n)%N.

(** ['{0:04x}'.format(n)] for [n < 0x10000] *)
Definition hex4 (n : N) : string :=
  String (hex_digit ((n / 4096) mod 16))
    (String (hex_digit ((n / 256) mod 16))
       (String (hex_digit ((n / 16) mod 16))
          (String (hex_digit (n mod 16)) ""))).

(** The code points of a text, from its UTF-8 bytes.  [acc] is the
    code point under construction and [need] the number of
    continuation bytes still expected.  Text read from a stream is
    well-formed; on other byte strings the function is total and reads
    a stray byte as the code point of the same number. *)
Fixpoint code_points_from (acc : N) (need : nat) (s : string) : list N :=
  match s with
  | EmptyString => match need with O => [] | S _ => [acc] end
  | String c rest =>
      let b := N_of_ascii c in
      match need with
      | O =>
          if (b <? 192)%N then b :: code_points_from 0 0 rest
          else if (b <? 224)%N then code_points_from (N.land b 31) 1 rest
          else if (b <? 240)%N then code_points_from (N.land b 15) 2 rest
          else code_points_from (N.land b 7) 3 rest
      | S k =>
          let acc' := (acc * 64 + N.land b 63)%N in
          match k with
          | O => acc' :: code_points_from 0 0 rest
          | S _ => code_points_from acc' k rest
          end
      end
  end.

Definition code_points (s : string) : list N := code_points_from 0 0 s.

(** The replacement [json.encoder] makes for one character under
    [ensure_ascii]: the short escapes of [ESCAPE_DCT], the character
    itself from space to tilde, and a [\uXXXX] escape, or a surrogate
    pair of them, for everything else. *)
Definition escape_code_point (n : N) : string :=
  if (n =? 34)%N then String backslash (String dquote "")
  else if (n =? 92)%N then String backslash (String backslash "")
  else if (n =? 8)%N then String backslash "b"
  else if (n =? 12)%N then String backslash "f"
  else if (n =? 10)%N then String backslash "n"
  else if (n =? 13)%N then String backslash "r"
  else if (n =? 9)%N then String backslash "t"
  else if ((32 <=? n) && (n <=? 126))%N then String (ascii_of_N n) ""
  else if (n <? 65536)%N then String backslash (String "u" (hex4 n))
  else
    let n' := (n - 65536)%N in
    let s1 := N.lor 55296 (N.land (N.shiftr n' 10) 1023) in
    let s2 := N.lor 56320 (N.land n' 1023) in
    String backslash (String "u" (hex4 s1))
      ++ String backslash (String "u" (hex4 s2)).

(** [py_encode_basestring_ascii] *)
Definition encode_basestring_ascii (s : string) : string :=
  String dquote (join_all (map escape_code_point (code_points s)))
    ++ String dquote "".

(** [floatstr] of [json.encoder], with [allow_nan] at its default. *)
Definition floatstr (py : runtime) (o : float) : string :=
  if is_nan o then "NaN"
  else if (o =? infinity)%float then "Infinity"
  else if (o =? neg_infinity)%float then "-Infinity"
  else float_repr py o.

(** [json.dumps(v)] with the default separators, on one line. *)
Fixpoint json_dumps (py : runtime) (v : value) : string :=
  match v with
  | VNone => "null"
  | VBool true => "true"
  | VBool false => "false"
  | VInt n => int_repr n
  | VFloat f => floatstr py f
  | VStr s => encode_basestring_ascii s
  | VList xs => "[" ++ join_comma (map (json_dumps py) xs) ++ "]"
  | VDict items =>
      "{" ++ join_comma
               (map (fun kv => encode_basestring_ascii (fst kv) ++ ": "
                               ++ json_dumps py (snd kv)) items)
          ++ "}"
  end.

(** ** The standard streams *)

(** What the process does to its streams, in the order it does it. *)
Inductive event : Type :=
| Readline (line : string)
| Write (data : string)
| Flush.

(** [stdin] is the text not read yet, as the text layer of the stream
    delivers it (decoded, every line ending a line feed); [trace] is
    the stream operations performed so far, oldest first. *)
Record process : Type := { stdin : string; trace : list event }.

Definition emit (e : event) (st : process) : process :=
  {| stdin := stdin st; trace := (trace st ++ [e])%list |}.

(** One line of [s], with its newline if it has one, and the text after
    it: what [readline] returns and what it leaves in the stream.  The
    line is empty only at the end of the stream. *)
Fixpoint readline (s : string) : string * string :=
  match s with
  | EmptyString => ("", "")
  | String c rest =>
      if Ascii.eqb c newline then (String c "", rest)
      else let (line, rest') := readline rest in (String c line, rest')
  end.

(** [sys.stdin.readline()] *)
Definition sys_stdin_readline (st : process) : string * process :=
  let (line, rest) := readline (stdin st) in
  (line, {| stdin := rest; trace := (trace st ++ [Readline line])%list |}).

(** [sys.stdout.write(data)]; the output stream is taken to be
    writable. *)
Definition sys_stdout_write (data : string) (st : process) : process :=
  emit (Write data) st.

(** [sys.stdout.flush()] *)
Definition sys_stdout_flush (st : process) : process := emit Flush st.

(** [not line] *)
Definition py_not_str (s : string) : bool :=
  match s with
  | EmptyString => true
  | String _ _ => false
  end.

(** ** [main] *)

(** How one pass through the body of [while True] ends. *)
Inductive control : Type := Continue | Break.

(** The two error responses built in the [except] clauses. *)
Definition parse_error_response (e : exn) : value :=
  VDict [ ("jsonrpc", VStr "2.0");
          ("id", VNone);
          ("error", VDict [ ("code", VInt (-32700));
                            ("message", VStr ("Parse error: " ++ exn_str e)) ]) ].

Definition internal_error_response (e : exn) : value :=
  VDict [ ("jsonrpc", VStr "2.0");
          ("id", VNone);
          ("error", VDict [ ("code", VInt (-32603));
                            ("message", VStr ("Internal error: " ++ exn_str e)) ]) ].

Section Main.

Variable py : runtime.
Variable environ : environment.

(** The body of the [try]: it ends normally, at [break] or at the
    end of the block, or with an exception, and in each case leaves
    the streams as they are at that point.  The exceptions are those
    of [json.loads] and of [handle_request]: [json.dumps] returns on
    every object built from decoded JSON, and the writes return on a
    writable stream. *)
Definition try_body (st : process) : outcome control * process :=
  let (line, st1) := sys_stdin_readline st in
  if py_not_str line then (Return Break, st1)
  else
    match json_loads py line with
    | Raise e => (Raise e, st1)
    | Return request =>
        match handle_request py environ request with
        | Raise e => (Raise e, st1)
        | Return response =>
            let st2 := sys_stdout_write
                         (json_dumps py response ++ String newline "") st1 in
            (Return Continue, sys_stdout_flush st2)
        end
    end.

(** One pass through the loop body: the [try] and its two [except]
    clauses. *)
Definition iteration (st : process) : control * process :=
  match try_body st with
  | (Return c, st1) => (c, st1)
  | (Raise e, st1) =>
      if is_JSONDecodeError e then
        let error_response := parse_error_response e in
        let st2 := sys_stdout_write
                     (json_dumps py error_response ++ String newline "") st1 in
        (Continue, sys_stdout_flush st2)
      else
        let error_response := internal_error_response e in
        let st2 := sys_stdout_write
                     (json_dumps py error_response ++ String newline "") st1 in
        (Continue, sys_stdout_flush st2)
  end.

(** [while True], run for at most [fuel] passes; [None] when the fuel
    runs out before the loop leaves. *)
Fixpoint main_loop (fuel : nat) (st : process) : option process :=
  match fuel with
  | O => None
  | S fuel' =>
      match iteration st with
      | (Break, st1) => Some st1
      | (Continue, st1) => main_loop fuel' st1
      end
  end.

(** The process started on the input text [input].  Every pass but
    the last consumes at least one character, so one pass more than
    the length of the input is fuel enough ([main_loop_lines]). *)
Definition main (input : string) : option process :=
  main_loop (S (String.length input)) {| stdin := input; trace := [] |}.

End Main.

(** ** Vocabulary of the statements *)

(** The lines of a text, each with its newline, the last one possibly
    without: the successive results of [readline]
    ([lines_readline]). *)
Fixpoint lines (s : string) : list string :=
  match s with
  | EmptyString => []
  | String c rest =>
      if Ascii.eqb c newline then String c "" :: lines rest
      else match lines rest with
           | [] => [String c ""]
           | l :: ls => String c l :: ls
           end
  end.

Fixpoint count_newlines (s : string) : nat :=
  match s with
  | EmptyString => 0
  | String c rest =>
      (if Ascii.eqb c newline then 1 else 0) + count_newlines rest
  end.

(** The strings written to [stdout] in a trace, oldest first, and the
    text they add up to. *)
Fixpoint written (tr : list event) : list string :=
  match tr with
  | [] => []
  | Write data :: rest => data :: written rest
  | _ :: rest => written rest
  end.

Definition stdout_text (st : process) : string :=
  join_all (written (trace st)).

(** The method names [handle_request] compares against, with the
    method each one calls: the handler registry of the
    specification. *)
Definition registry (py : runtime)
  : list (string * (CodeAnalyzer -> value -> value)) :=
  [ ("analyze_complexity", analyze_complexity);
    ("find_patterns", find_patterns py);
    ("suggest_refactoring", suggest_refactoring) ].

Definition registered (method : value) : bool :=
  match method with
  | VStr name =>
      String.eqb name "analyze_complexity"
      || String.eqb name "find_patterns"
      || String.eqb name "suggest_refactoring"
  | _ => false
  end.

(** The success envelope that [handle_request] returns. *)
Definition success_response (id result : value) : value :=
  VDict [ ("jsonrpc", VStr "2.0"); ("id", id); ("result", result) ].

Section Responses.

Variable py : runtime.
Variable environ : environment.

(** The response object one pass of the loop serialises for the line
    it has read ([iteration_line]). *)
Definition response_to (line : string) : value :=
  match json_loads py line with
  | Raise e =>
      if is_JSONDecodeError e then parse_error_response e
      else internal_error_response e
  | Return request =>
      match handle_request py environ request with
      | Return response => response
      | Raise e =>
          if is_JSONDecodeError e then parse_error_response e
          else internal_error_response e
      end
  end.

(** What is written for a line. *)
Definition output_for (line : string) : string :=
  json_dumps py (response_to line) ++ String newline "".

(** The stream operations of the pass that reads [line]. *)
Definition line_events (line : string) : list event :=
  [ Readline line; Write (output_for line); Flush ].

(** The process after a pass that has read the next line of [st] and
    answered it with [response]. *)
Definition answered (st : process) (response : value) : process :=
  {| stdin := snd (readline (stdin st));
     trace := (trace st
               ++ [ Readline (fst (readline (stdin st)));
                    Write (json_dumps py response ++ String newline "");
                    Flush ])%list |}.

End Responses.

(** ** The runtime of CPython 3.11

    The decoder of [json.loads] and the two [repr]s, written out from
    CPython 3.11's [Modules/_json.c], [Lib/json/decoder.py],
    [Python/pystrtod.c] and [Objects/unicodeobject.c], so that the
    server can be run on concrete lines.  The theorems below hold for
    every [runtime]; this one instantiates them.  It follows CPython
    on the decoder's results and messages, on the limits of 4300
    digits and of the recursion depth, and on the [repr] of floats
    and of strings. *)
Module CPython.

(** *** Characters *)

Definition is_digit (c : ascii) : bool :=
  let n := N_of_ascii c in ((48 <=? n) && (n <=? 57))%N.

Definition digit_value (c : ascii) : Z := Z.of_N (N_of_ascii c) - 48.

(** [IS_WHITESPACE]: space, tab, line feed, carriage return. *)
Definition is_whitespace (c : ascii) : bool :=
  let n := N_of_ascii c in
  ((n =? 32) || (n =? 9) || (n =? 10) || (n =? 13))%N.

Fixpoint skip_whitespace (s : string) : string :=
  match s with
  | String c rest => if is_whitespace c then skip_whitespace rest else s
  | EmptyString => s
  end.

(** The digits [s] starts with, and the text after them. *)
Fixpoint span_digits (s : string) : string * string :=
  match s with
  | String c rest =>
      if is_digit c then
        let (ds, rest') := span_digits rest in (String c ds, rest')
      else ("", s)
  | EmptyString => ("", s)
  end.

(** [s] without the prefix [p], when it starts with it. *)
Fixpoint strip_prefix (p s : string) : option string :=
  match p, s with
  | EmptyString, _ => Some s
  | String a p', String b s' =>
      if Ascii.eqb a b then strip_prefix p' s' else None
  | String _ _, EmptyString => None
  end.

Fixpoint take (n : nat) (s : string) : string :=
  match n, s with
  | S n', String c rest => String c (take n' rest)
  | _, _ => ""
  end.

(** The value of a decimal numeral. *)
Fixpoint decimal_value (acc : Z) (digits : string) : Z :=
  match digits with
  | String c rest => decimal_value (10 * acc + digit_value c) rest
  | EmptyString => acc
  end.

Definition hex_value (c : ascii) : option N :=
  let n := N_of_ascii c in
  if ((48 <=? n) && (n <=? 57))%N then Some (n - 48)%N
  else if ((97 <=? n) && (n <=? 102))%N then Some (n - 87)%N
  else if ((65 <=? n) && (n <=? 70))%N then Some (n - 55)%N
  else None.

(** The four hexadecimal digits of a [\uXXXX] escape, when they are
    all there, and the text after them. *)
Definition hex4_value (s : string) : option (N * string) :=
  match s with
  | String a (String b (String c (String d rest))) =>
      match hex_value a, hex_value b, hex_value c, hex_value d with
      | Some x, Some y, Some z, Some w =>
          Some (((x * 16 + y) * 16 + z) * 16 + w, rest)%N
      | _, _, _, _ => None
      end
  | _ => None
  end.

(** The UTF-8 bytes of a code point; a surrogate, which
    [\uXXXX] can denote on its own, is encoded like any other code
    point of its range. *)
Definition utf8_encode (n : N) : string :=
  let byte (x : N) := ascii_of_N x in
  let cont (x : N) := ascii_of_N (N.lor 128 (N.land x 63)) in
  if (n <? 128)%N then String (byte n) ""
  else if (n <? 2048)%N then
    String (byte (N.lor 192 (N.shiftr n 6))) (String (cont n) "")
  else if (n <? 65536)%N then
    String (byte (N.lor 224 (N.shiftr n 12)))
      (String (cont (N.shiftr n 6)) (String (cont n) ""))
  else
    String (byte (N.lor 240 (N.shiftr n 18)))
      (String (cont (N.shiftr n 12))
         (String (cont (N.shiftr n 6)) (String (cont n) ""))).

(** *** Failures of the scanner *)

(** A scan stops on a syntax error, located by the text that remains
    at the position it is reported at, or on another exception. *)
Inductive failure : Type :=
| SyntaxAt (msg : string) (remaining : string)
| Fault (e : exn).

Inductive scan (A : Type) : Type :=
| Scanned (a : A) (rest : string)
| Failed (f : failure).

Arguments Scanned {A} a rest.
Arguments Failed {A} f.

(** *** Strings: [scanstring_unicode], with [strict] set *)

Definition simple_escape (c : ascii) : option ascii :=
  let n := N_of_ascii c in
  if (n =? 34)%N then Some c
  else if (n =? 92)%N then Some c
  else if (n =? 47)%N then Some c
  else if (n =? 98)%N then Some (ascii_of_N 8)
  else if (n =? 102)%N then Some (ascii_of_N 12)
  else if (n =? 110)%N then Some (ascii_of_N 10)
  else if (n =? 114)%N then Some (ascii_of_N 13)
  else if (n =? 116)%N then Some (ascii_of_N 9)
  else None.

Definition is_high_surrogate (n : N) : bool := ((55296 <=? n) && (n <=? 56319))%N.
Definition is_low_surrogate (n : N) : bool := ((56320 <=? n) && (n <=? 57343))%N.

(** The code point a [\u] escape denotes and the text after the
    escape; [s] is the text after the first four digits, whose value
    is [c1].  A high surrogate takes a following low surrogate with
    it, when the text goes on after the six characters of a second
    escape. *)
Definition unicode_escape (c1 : N) (s : string) : scan N :=
  if is_high_surrogate c1 && (7 <=? List.length (code_points s))%nat then
    match strip_prefix (String backslash "u") s with
    | None => Scanned c1 s
    | Some digits =>
        match hex4_value digits with
        | None =>
            Failed (SyntaxAt "Invalid \uXXXX escape"
                      (match s with String _ u => u | EmptyString => s end))
        | Some (c2, rest) =>
            if is_low_surrogate c2 then
              Scanned (65536 + N.shiftl (N.land c1 1023) 10 + N.land c2 1023)%N rest
            else Scanned c1 s
        end
    end
  else Scanned c1 s.

(** The body of a string literal.  [opening] is the text from the
    opening quote on, [s] the text still to scan, [acc] the string
    read so far; [fuel] bounds the characters of [s].  A [\u] escape
    needs its four digits and one character more. *)
Fixpoint scanstring (fuel : nat) (opening s acc : string) : scan string :=
  match fuel, s with
  | S fuel', String c rest =>
      if Ascii.eqb c dquote then Scanned acc rest
      else if Ascii.eqb c backslash then
        match rest with
        | EmptyString =>
            Failed (SyntaxAt "Unterminated string starting at" opening)
        | String esc rest' =>
            if Ascii.eqb esc "u" then
              match hex4_value rest' with
              | None | Some (_, EmptyString) =>
                  Failed (SyntaxAt "Invalid \uXXXX escape" rest)
              | Some (c1, rest'') =>
                  match unicode_escape c1 rest'' with
                  | Failed f => Failed f
                  | Scanned n rest''' =>
                      scanstring fuel' opening rest''' (acc ++ utf8_encode n)
                  end
              end
            else
              match simple_escape esc with
              | None => Failed (SyntaxAt "Invalid \escape" s)
              | Some ch => scanstring fuel' opening rest' (acc ++ String ch "")
              end
        end
      else if (N_of_ascii c <=? 31)%N then
        Failed (SyntaxAt "Invalid control character at" s)
      else scanstring fuel' opening rest (acc ++ String c "")
  | _, _ => Failed (SyntaxAt "Unterminated string starting at" opening)
  end.

(** *** Numbers: [_match_number_unicode] *)

(** [float(text)] for a numeral whose digits, without the point, have
    the value [m] and which stands for [m * 10 ^ e]: the nearest
    double, ties to even.  Far out of the range of doubles the
    result is known without computing the power of ten. *)
Definition float_of_decimal (negative : bool) (m e : Z) : float :=
  if (m =? 0)%Z then (if negative then neg_zero else zero)
  else if (310 <? Z.log2 m / 4 + e)%Z then
    (if negative then neg_infinity else infinity)
  else if ((Z.log2 m + 1) / 3 + e <? -330)%Z then
    (if negative then neg_zero else zero)
  else if (0 <=? e)%Z then
    SF2Prim (binary_round_aux prec emax negative (m * 10 ^ e) 0 loc_Exact)
  else
    let d := (10 ^ (- e))%Z in
    let k := Z.max 0 (64 + Z.log2 d - Z.log2 m) in
    let n := (m * 2 ^ k)%Z in
    let q := (n / d)%Z in
    let r := (n mod d)%Z in
    let loc := if (r =? 0)%Z then loc_Exact else loc_Inexact (2 * r ?= d)%Z in
    SF2Prim (binary_round_aux prec emax negative q (- k) loc).

(** [int(text)] of a numeral with digits [digits]: CPython refuses a
    numeral of more than 4300 digits. *)
Definition int_of_digits (negative : bool) (digits : string) : outcome value :=
  let count := String.length digits in
  if (4300 <? count)%nat then
    Raise (OtherException "ValueError"
             ("Exceeds the limit (4300 digits) for integer string conversion: value has "
              ++ NilZero.string_of_uint (Nat.to_uint count)
              ++ " digits; use sys.set_int_max_str_digits() to increase the limit"))
  else
    let n := decimal_value 0 digits in
    Return (VInt (if negative then - n else n)).

(** The number [s] starts with, if any, and the text after it. *)
Definition match_number (s : string) : option (outcome value * string) :=
  let (negative, s1) :=
    match s with
    | String c rest => if Ascii.eqb c "-" then (true, rest) else (false, s)
    | EmptyString => (false, s)
    end in
  match s1 with
  | EmptyString => None
  | String c rest =>
      if is_digit c then
        let (int_digits, s2) :=
          if Ascii.eqb c "0" then (String c "", rest)
          else let (ds, r) := span_digits rest in (String c ds, r) in
        let (frac_digits, s3) :=
          match s2 with
          | String p (String d r) =>
              if Ascii.eqb p "." && is_digit d then
                let (ds, r') := span_digits r in (String d ds, r')
              else ("", s2)
          | _ => ("", s2)
          end in
        let (exponent, s4) :=
          match s3 with
          | String x r =>
              if Ascii.eqb x "e" || Ascii.eqb x "E" then
                let (exp_negative, r1) :=
                  match r with
                  | String sg r' =>
                      if Ascii.eqb sg "-" then (true, r')
                      else if Ascii.eqb sg "+" then (false, r')
                      else (false, r)
                  | EmptyString => (false, r)
                  end in
                let (ds, r2) := span_digits r1 in
                match ds with
                | EmptyString => (None, s3)
                | String _ _ =>
                    let n := decimal_value 0 ds in
                    (Some (if exp_negative then - n else n)%Z, r2)
                end
              else (None, s3)
          | EmptyString => (None, s3)
          end in
        match frac_digits, exponent with
        | EmptyString, None => Some (int_of_digits negative int_digits, s4)
        | _, _ =>
            let m := decimal_value 0 (int_digits ++ frac_digits) in
            let e := (match exponent with Some x => x | None => 0 end
                      - Z.of_nat (String.length frac_digits))%Z in
            Some (Return (VFloat (float_of_decimal negative m e)), s4)
        end
      else None
  end.

(** *** Values: [scan_once_unicode] *)

(** [d[key] = v] *)
Fixpoint dict_set (d : dict) (key : string) (v : value) : dict :=
  match d with
  | [] => [(key, v)]
  | (k, x) :: rest =>
      if String.eqb k key then (k, v) :: rest
      else (k, x) :: dict_set rest key v
  end.

Definition recursion_error (what : string) : exn :=
  OtherException "RecursionError"
    ("maximum recursion depth exceeded while decoding a JSON "
     ++ what ++ " from a unicode string").

Definition expecting_value (s : string) : failure := SyntaxAt "Expecting value" s.

(** One JSON value at the start of [s].  [depth] is the number of
    containers that may still be entered before the interpreter's
    recursion limit is reached. *)
Fixpoint scan_once (depth : nat) (s : string) : scan value :=
  match s with
  | EmptyString => Failed (expecting_value s)
  | String c rest =>
      if Ascii.eqb c dquote then
        match scanstring (String.length rest) s rest "" with
        | Scanned str rest' => Scanned (VStr str) rest'
        | Failed f => Failed f
        end
      else if Ascii.eqb c "{" then
        match depth with
        | O => Failed (Fault (recursion_error "object"))
        | S depth' =>
            let members :=
              fix members (fuel : nat) (s : string) (acc : dict) : scan value :=
                match fuel, s with
                | S fuel', String q after_quote =>
                    if Ascii.eqb q dquote then
                      match scanstring (String.length after_quote) s after_quote "" with
                      | Failed f => Failed f
                      | Scanned key s1 =>
                          let s1 := skip_whitespace s1 in
                          match s1 with
                          | String colon s2 =>
                              if Ascii.eqb colon ":" then
                                match scan_once depth' (skip_whitespace s2) with
                                | Failed f => Failed f
                                | Scanned v s3 =>
                                    let s3 := skip_whitespace s3 in
                                    match s3 with
                                    | String sep s4 =>
                                        if Ascii.eqb sep "}" then
                                          Scanned (VDict (dict_set acc key v)) s4
                                        else if Ascii.eqb sep "," then
                                          members fuel' (skip_whitespace s4)
                                            (dict_set acc key v)
                                        else Failed (SyntaxAt "Expecting ',' delimiter" s3)
                                    | EmptyString =>
                                        Failed (SyntaxAt "Expecting ',' delimiter" s3)
                                    end
                                end
                              else Failed (SyntaxAt "Expecting ':' delimiter" s1)
                          | EmptyString => Failed (SyntaxAt "Expecting ':' delimiter" s1)
                          end
                      end
                    else
                      Failed (SyntaxAt
                                "Expecting property name enclosed in double quotes" s)
                | _, _ =>
                    Failed (SyntaxAt
                              "Expecting property name enclosed in double quotes" s)
                end in
            let s1 := skip_whitespace rest in
            match s1 with
            | String close s2 =>
                if Ascii.eqb close "}" then Scanned (VDict []) s2
                else members (String.length s1) s1 []
            | EmptyString => members 0 s1 []
            end
        end
      else if Ascii.eqb c "[" then
        match depth with
        | O => Failed (Fault (recursion_error "array"))
        | S depth' =>
            let elements :=
              fix elements (fuel : nat) (s : string) (acc : list value) : scan value :=
                match fuel with
                | O => Failed (expecting_value s)
                | S fuel' =>
                    match scan_once depth' s with
                    | Failed f => Failed f
                    | Scanned v s1 =>
                        let s1 := skip_whitespace s1 in
                        match s1 with
                        | String sep s2 =>
                            if Ascii.eqb sep "]" then
                              Scanned (VList (rev (v :: acc))) s2
                            else if Ascii.eqb sep "," then
                              elements fuel' (skip_whitespace s2) (v :: acc)
                            else Failed (SyntaxAt "Expecting ',' delimiter" s1)
                        | EmptyString =>
                            Failed (SyntaxAt "Expecting ',' delimiter" s1)
                        end
                    end
                end in
            let s1 := skip_whitespace rest in
            match s1 with
            | String close s2 =>
                if Ascii.eqb close "]" then Scanned (VList []) s2
                else elements (String.length s1) s1 []
            | EmptyString => Failed (expecting_value s1)
            end
        end
      else
        match strip_prefix "null" s, strip_prefix "true" s, strip_prefix "false" s with
        | Some rest', _, _ => Scanned VNone rest'
        | _, Some rest', _ => Scanned (VBool true) rest'
        | _, _, Some rest' => Scanned (VBool false) rest'
        | None, None, None =>
            match strip_prefix "NaN" s, strip_prefix "Infinity" s,
                  strip_prefix "-Infinity" s with
            | Some rest', _, _ => Scanned (VFloat nan) rest'
            | _, Some rest', _ => Scanned (VFloat infinity) rest'
            | _, _, Some rest' => Scanned (VFloat neg_infinity) rest'
            | None, None, None =>
                match match_number s with
                | Some (Return v, rest') => Scanned v rest'
                | Some (Raise e, _) => Failed (Fault e)
                | None => Failed (expecting_value s)
                end
            end
        end
  end.

(** *** [json.loads] *)

(** The text of [s] after its last newline. *)
Fixpoint last_line (current s : string) : string :=
  match s with
  | EmptyString => current
  | String c rest =>
      if Ascii.eqb c newline then last_line rest rest else last_line current rest
  end.

(** [str(JSONDecodeError(msg, doc, pos))], where [pos] is the
    position at which [remaining] starts in [doc]: the message, then
    the line, column and character of the position. *)
Definition errmsg (msg doc remaining : string) : string :=
  let before := take (String.length doc - String.length remaining) doc in
  let pos := List.length (code_points before) in
  let lineno := S (count_newlines before) in
  let colno := S (List.length (code_points (last_line before before))) in
  msg ++ ": line " ++ NilZero.string_of_uint (Nat.to_uint lineno)
      ++ " column " ++ NilZero.string_of_uint (Nat.to_uint colno)
      ++ " (char " ++ NilZero.string_of_uint (Nat.to_uint pos) ++ ")".

(** The byte order mark U+FEFF. *)
Definition bom : string :=
  String (ascii_of_N 239) (String (ascii_of_N 187) (String (ascii_of_N 191) "")).

(** The containers a script that calls [json.loads] from [main] can
    nest before CPython's default recursion limit of 1000 is
    reached. *)
Definition max_depth : nat := 994.

Definition loads (s : string) : outcome value :=
  match strip_prefix bom s with
  | Some _ =>
      Raise (JSONDecodeError
               (errmsg "Unexpected UTF-8 BOM (decode using utf-8-sig)" s s))
  | None =>
      match scan_once max_depth (skip_whitespace s) with
      | Failed (SyntaxAt msg remaining) =>
          Raise (JSONDecodeError (errmsg msg s remaining))
      | Failed (Fault e) => Raise e
      | Scanned v rest =>
          match skip_whitespace rest with
          | EmptyString => Return v
          | String _ _ as extra =>
              Raise (JSONDecodeError (errmsg "Extra data" s extra))
          end
      end
  end.

(** *** [float.__repr__]: the shortest numeral that reads back *)

(** The exact double [m * 2 ^ e] and the two ends of the interval of
    reals that round to it, as numerators over one denominator. *)
Record neighbourhood : Type := {
  num : Z;       (* the double *)
  low : Z;       (* half way to the double below *)
  high : Z;      (* half way to the double above *)
  den : Z;
  closed : bool  (* whether the two ends round to the double *)
}.

Definition neighbourhood_of (m : positive) (e : Z) : neighbourhood :=
  let x := (4 * Z.pos m)%Z in
  let below :=
    if (Z.pos m =? 2 ^ 52)%Z && (-1074 <? e)%Z then (x - 1)%Z else (x - 2)%Z in
  let above := (x + 2)%Z in
  let scale := (e - 2)%Z in
  let up := if (0 <=? scale)%Z then (2 ^ scale)%Z else 1%Z in
  let down := if (0 <=? scale)%Z then 1%Z else (2 ^ (- scale))%Z in
  {| num := x * up; low := below * up; high := above * up; den := down;
     closed := Z.even (Z.pos m) |}.

(** [c * 10 ^ k] compared with [n / d]. *)
Definition compare_scaled (c k n d : Z) : comparison :=
  if (0 <=? k)%Z then (c * 10 ^ k * d ?= n)%Z
  else (c * d ?= n * 10 ^ (- k))%Z.

Definition inside (nb : neighbourhood) (c k : Z) : bool :=
  match compare_scaled c k (low nb) (den nb), compare_scaled c k (high nb) (den nb) with
  | Gt, Lt => true
  | Eq, Lt | Gt, Eq | Eq, Eq => closed nb
  | _, _ => false
  end.

(** The least [p] from [p] on with [x < 10 ^ p]. *)
Fixpoint decimal_point (fuel : nat) (nb : neighbourhood) (p : Z) : Z :=
  match fuel with
  | O => p
  | S fuel' =>
      match compare_scaled 1 p (num nb) (den nb) with
      | Gt => p
      | _ => decimal_point fuel' nb (p + 1)
      end
  end.

(** The numeral of [n] significant digits nearest to the double
    among those that read back as it, as [c * 10 ^ k]. *)
Definition candidate (nb : neighbourhood) (p : Z) (n : Z) : option (Z * Z) :=
  let k := (p - n)%Z in
  let scaled_num := if (0 <=? k)%Z then num nb else (num nb * 10 ^ (- k))%Z in
  let scaled_den := if (0 <=? k)%Z then (den nb * 10 ^ k)%Z else den nb in
  let c := (scaled_num / scaled_den)%Z in
  let r := (scaled_num mod scaled_den)%Z in
  let prefer_floor :=
    match (2 * r ?= scaled_den)%Z with
    | Lt => true
    | Eq => Z.even c
    | Gt => false
    end in
  match inside nb c k, inside nb (c + 1) k with
  | true, true => Some (if prefer_floor then c else (c + 1)%Z, k)
  | true, false => Some (c, k)
  | false, true => Some ((c + 1)%Z, k)
  | false, false => None
  end.

Fixpoint shortest_from (fuel : nat) (nb : neighbourhood) (p n : Z) : Z * Z :=
  match fuel with
  | O => (num nb / den nb, 0)%Z
  | S fuel' =>
      match candidate nb p n with
      | Some ck => ck
      | None => shortest_from fuel' nb p (n + 1)
      end
  end.

Fixpoint strip_zeros (fuel : nat) (c k : Z) : Z * Z :=
  match fuel with
  | O => (c, k)
  | S fuel' =>
      if (c mod 10 =? 0)%Z then strip_zeros fuel' (c / 10)%Z (k + 1)%Z else (c, k)
  end.

Fixpoint zeros (n : nat) : string :=
  match n with
  | O => ""
  | S n' => String "0" (zeros n')
  end.

Fixpoint drop (n : nat) (s : string) : string :=
  match n, s with
  | S n', String _ rest => drop n' rest
  | _, _ => s
  end.

Definition uint_repr (n : Z) : string := NilZero.string_of_uint (N.to_uint (Z.to_N n)).

(** [format_float_short] in mode ['r']: the digits [digits], read as
    [0.digits * 10 ^ decpt], in positional notation, or with an
    exponent when [decpt] is at most -4 or more than 16. *)
Definition format_short (digits : string) (decpt : Z) : string :=
  let n := Z.of_nat (String.length digits) in
  if ((decpt <=? -4) || (16 <? decpt))%Z then
    let mantissa :=
      match digits with
      | String d EmptyString => digits
      | String d more => String d (String "." more)
      | EmptyString => digits
      end in
    let e := (decpt - 1)%Z in
    let e_digits := uint_repr (Z.abs e) in
    mantissa ++ "e" ++ (if (e <? 0)%Z then "-" else "+")
             ++ (if (Z.abs e <? 10)%Z then "0" else "") ++ e_digits
  else if (decpt <=? 0)%Z then "0." ++ zeros (Z.to_nat (- decpt)) ++ digits
  else if (decpt <? n)%Z then
    take (Z.to_nat decpt) digits ++ "." ++ drop (Z.to_nat decpt) digits
  else digits ++ zeros (Z.to_nat (decpt - n)) ++ ".0".

Definition float_repr (x : float) : string :=
  match Prim2SF x with
  | S754_nan => "nan"
  | S754_infinity s => if s then "-inf" else "inf"
  | S754_zero s => if s then "-0.0" else "0.0"
  | S754_finite s m e =>
      let nb := neighbourhood_of m e in
      let estimate := ((Z.log2 (Z.pos m) + e) * 30103 / 100000 - 1)%Z in
      let p := decimal_point 5 nb estimate in
      let (c, k) := shortest_from 17 nb p 1 in
      let (c', k') := strip_zeros 17 c k in
      let digits := uint_repr c' in
      (if s then "-" else "")
        ++ format_short digits (k' + Z.of_nat (String.length digits))
  end.

(** *** [str.__repr__] *)

(** Whether [c] occurs in [s]. *)
Fixpoint contains (c : ascii) (s : string) : bool :=
  match s with
  | EmptyString => false
  | String x rest => Ascii.eqb x c || contains c rest
  end.

Definition hex2 (n : N) : string :=
  String (hex_digit ((n / 16) mod 16)) (String (hex_digit (n mod 16)) "").

(** The code points that are not printable, as ranges with both ends
    included: the table behind [Py_UNICODE_ISPRINTABLE] in CPython
    3.11, which is that of Unicode 14.0.0. *)
Definition nonprintable_ranges : list (N * N) :=
  [(0, 31); (127, 160); (173, 173); (888, 889); (896, 899); (907, 907);
   (909, 909); (930, 930); (1328, 1328); (1367, 1368); (1419, 1420);
   (1424, 1424); (1480, 1487); (1515, 1518); (1525, 1541); (1564, 1564);
   (1757, 1757); (1806, 1807); (1867, 1868); (1970, 1983); (2043, 2044);
   (2094, 2095); (2111, 2111); (2140, 2141); (2143, 2143); (2155, 2159);
   (2191, 2199); (2274, 2274); (2436, 2436); (2445, 2446); (2449, 2450);
   (2473, 2473); (2481, 2481); (2483, 2485); (2490, 2491); (2501, 2502);
   (2505, 2506); (2511, 2518); (2520, 2523); (2526, 2526); (2532, 2533);
   (2559, 2560); (2564, 2564); (2571, 2574); (2577, 2578); (2601, 2601);
   (2609, 2609); (2612, 2612); (2615, 2615); (2618, 2619); (2621, 2621);
   (2627, 2630); (2633, 2634); (2638, 2640); (2642, 2648); (2653, 2653);
   (2655, 2661); (2679, 2688); (2692, 2692); (2702, 2702); (2706, 2706);
   (2729, 2729); (2737, 2737); (2740, 2740); (2746, 2747); (2758, 2758);
   (2762, 2762); (2766, 2767); (2769, 2783); (2788, 2789); (2802, 2808);
   (2816, 2816); (2820, 2820); (2829, 2830); (2833, 2834); (2857, 2857);
   (2865, 2865); (2868, 2868); (2874, 2875); (2885, 2886); (2889, 2890);
   (2894, 2900); (2904, 2907); (2910, 2910); (2916, 2917); (2936, 2945);
   (2948, 2948); (2955, 2957); (2961, 2961); (2966, 2968); (2971, 2971);
   (2973, 2973); (2976, 2978); (2981, 2983); (2987, 2989); (3002, 3005);
   (3011, 3013); (3017, 3017); (3022, 3023); (3025, 3030); (3032, 3045);
   (3067, 3071); (3085, 3085); (3089, 3089); (3113, 3113); (3130, 3131);
   (3141, 3141); (3145, 3145); (3150, 3156); (3159, 3159); (3163, 3164);
   (3166, 3167); (3172, 3173); (3184, 3190); (3213, 3213); (3217, 3217);
   (3241, 3241); (3252, 3252); (3258, 3259); (3269, 3269); (3273, 3273);
   (3278, 3284); (3287, 3292); (3295, 3295); (3300, 3301); (3312, 3312);
   (3315, 3327); (3341, 3341); (3345, 3345); (3397, 3397); (3401, 3401);
   (3408, 3411); (3428, 3429); (3456, 3456); (3460, 3460); (3479, 3481);
   (3506, 3506); (3516, 3516); (3518, 3519); (3527, 3529); (3531, 3534);
   (3541, 3541); (3543, 3543); (3552, 3557); (3568, 3569); (3573, 3584);
   (3643, 3646); (3676, 3712); (3715, 3715); (3717, 3717); (3723, 3723);
   (3748, 3748); (3750, 3750); (3774, 3775); (3781, 3781); (3783, 3783);
   (3790, 3791); (3802, 3803); (3808, 3839); (3912, 3912); (3949, 3952);
   (3992, 3992); (4029, 4029); (4045, 4045); (4059, 4095); (4294, 4294);
   (4296, 4300); (4302, 4303); (4681, 4681); (4686, 4687); (4695, 4695);
   (4697, 4697); (4702, 4703); (4745, 4745); (4750, 4751); (4785, 4785);
   (4790, 4791); (4799, 4799); (4801, 4801); (4806, 4807); (4823, 4823);
   (4881, 4881); (4886, 4887); (4955, 4956); (4989, 4991); (5018, 5023);
   (5110, 5111); (5118, 5119); (5760, 5760); (5789, 5791); (5881, 5887);
   (5910, 5918); (5943, 5951); (5972, 5983); (5997, 5997); (6001, 6001);
   (6004, 6015); (6110, 6111); (6122, 6127); (6138, 6143); (6158, 6158);
   (6170, 6175); (6265, 6271); (6315, 6319); (6390, 6399); (6431, 6431);
   (6444, 6447); (6460, 6463); (6465, 6467); (6510, 6511); (6517, 6527);
   (6572, 6575); (6602, 6607); (6619, 6621); (6684, 6685); (6751, 6751);
   (6781, 6782); (6794, 6799); (6810, 6815); (6830, 6831); (6863, 6911);
   (6989, 6991); (7039, 7039); (7156, 7163); (7224, 7226); (7242, 7244);
   (7305, 7311); (7355, 7356); (7368, 7375); (7419, 7423); (7958, 7959);
   (7966, 7967); (8006, 8007); (8014, 8015); (8024, 8024); (8026, 8026);
   (8028, 8028); (8030, 8030); (8062, 8063); (8117, 8117); (8133, 8133);
   (8148, 8149); (8156, 8156); (8176, 8177); (8181, 8181); (8191, 8207);
   (8232, 8239); (8287, 8303); (8306, 8307); (8335, 8335); (8349, 8351);
   (8385, 8399); (8433, 8447); (8588, 8591); (9255, 9279); (9291, 9311);
   (11124, 11125); (11158, 11158); (11508, 11512); (11558, 11558);
   (11560, 11564); (11566, 11567); (11624, 11630); (11633, 11646);
   (11671, 11679); (11687, 11687); (11695, 11695); (11703, 11703);
   (11711, 11711); (11719, 11719); (11727, 11727); (11735, 11735);
   (11743, 11743); (11870, 11903); (11930, 11930); (12020, 12031);
   (12246, 12271); (12284, 12288); (12352, 12352); (12439, 12440);
   (12544, 12548); (12592, 12592); (12687, 12687); (12772, 12783);
   (12831, 12831); (42125, 42127); (42183, 42191); (42540, 42559);
   (42744, 42751); (42955, 42959); (42962, 42962); (42964, 42964);
   (42970, 42993); (43053, 43055); (43066, 43071); (43128, 43135);
   (43206, 43213); (43226, 43231); (43348, 43358); (43389, 43391);
   (43470, 43470); (43482, 43485); (43519, 43519); (43575, 43583);
   (43598, 43599); (43610, 43611); (43715, 43738); (43767, 43776);
   (43783, 43784); (43791, 43792); (43799, 43807); (43815, 43815);
   (43823, 43823); (43884, 43887); (44014, 44015); (44026, 44031);
   (55204, 55215); (55239, 55242); (55292, 63743); (64110, 64111);
   (64218, 64255); (64263, 64274); (64280, 64284); (64311, 64311);
   (64317, 64317); (64319, 64319); (64322, 64322); (64325, 64325);
   (64451, 64466); (64912, 64913); (64968, 64974); (64976, 65007);
   (65050, 65055); (65107, 65107); (65127, 65127); (65132, 65135);
   (65141, 65141); (65277, 65280); (65471, 65473); (65480, 65481);
   (65488, 65489); (65496, 65497); (65501, 65503); (65511, 65511);
   (65519, 65531); (65534, 65535); (65548, 65548); (65575, 65575);
   (65595, 65595); (65598, 65598); (65614, 65615); (65630, 65663);
   (65787, 65791); (65795, 65798); (65844, 65846); (65935, 65935);
   (65949, 65951); (65953, 65999); (66046, 66175); (66205, 66207);
   (66257, 66271); (66300, 66303); (66340, 66348); (66379, 66383);
   (66427, 66431); (66462, 66462); (66500, 66503); (66518, 66559);
   (66718, 66719); (66730, 66735); (66772, 66775); (66812, 66815);
   (66856, 66863); (66916, 66926); (66939, 66939); (66955, 66955);
   (66963, 66963); (66966, 66966); (66978, 66978); (66994, 66994);
   (67002, 67002); (67005, 67071); (67383, 67391); (67414, 67423);
   (67432, 67455); (67462, 67462); (67505, 67505); (67515, 67583);
   (67590, 67591); (67593, 67593); (67638, 67638); (67641, 67643);
   (67645, 67646); (67670, 67670); (67743, 67750); (67760, 67807);
   (67827, 67827); (67830, 67834); (67868, 67870); (67898, 67902);
   (67904, 67967); (68024, 68027); (68048, 68049); (68100, 68100);
   (68103, 68107); (68116, 68116); (68120, 68120); (68150, 68151);
   (68155, 68158); (68169, 68175); (68185, 68191); (68256, 68287);
   (68327, 68330); (68343, 68351); (68406, 68408); (68438, 68439);
   (68467, 68471); (68498, 68504); (68509, 68520); (68528, 68607);
   (68681, 68735); (68787, 68799); (68851, 68857); (68904, 68911);
   (68922, 69215); (69247, 69247); (69290, 69290); (69294, 69295);
   (69298, 69375); (69416, 69423); (69466, 69487); (69514, 69551);
   (69580, 69599); (69623, 69631); (69710, 69713); (69750, 69758);
   (69821, 69821); (69827, 69839); (69865, 69871); (69882, 69887);
   (69941, 69941); (69960, 69967); (70007, 70015); (70112, 70112);
   (70133, 70143); (70162, 70162); (70207, 70271); (70279, 70279);
   (70281, 70281); (70286, 70286); (70302, 70302); (70314, 70319);
   (70379, 70383); (70394, 70399); (70404, 70404); (70413, 70414);
   (70417, 70418); (70441, 70441); (70449, 70449); (70452, 70452);
   (70458, 70458); (70469, 70470); (70473, 70474); (70478, 70479);
   (70481, 70486); (70488, 70492); (70500, 70501); (70509, 70511);
   (70517, 70655); (70748, 70748); (70754, 70783); (70856, 70863);
   (70874, 71039); (71094, 71095); (71134, 71167); (71237, 71247);
   (71258, 71263); (71277, 71295); (71354, 71359); (71370, 71423);
   (71451, 71452); (71468, 71471); (71495, 71679); (71740, 71839);
   (71923, 71934); (71943, 71944); (71946, 71947); (71956, 71956);
   (71959, 71959); (71990, 71990); (71993, 71994); (72007, 72015);
   (72026, 72095); (72104, 72105); (72152, 72153); (72165, 72191);
   (72264, 72271); (72355, 72367); (72441, 72703); (72713, 72713);
   (72759, 72759); (72774, 72783); (72813, 72815); (72848, 72849);
   (72872, 72872); (72887, 72959); (72967, 72967); (72970, 72970);
   (73015, 73017); (73019, 73019); (73022, 73022); (73032, 73039);
   (73050, 73055); (73062, 73062); (73065, 73065); (73103, 73103);
   (73106, 73106); (73113, 73119); (73130, 73439); (73465, 73647);
   (73649, 73663); (73714, 73726); (74650, 74751); (74863, 74863);
   (74869, 74879); (75076, 77711); (77811, 77823); (78895, 82943);
   (83527, 92159); (92729, 92735); (92767, 92767); (92778, 92781);
   (92863, 92863); (92874, 92879); (92910, 92911); (92918, 92927);
   (92998, 93007); (93018, 93018); (93026, 93026); (93048, 93052);
   (93072, 93759); (93851, 93951); (94027, 94030); (94088, 94094);
   (94112, 94175); (94181, 94191); (94194, 94207); (100344, 100351);
   (101590, 101631); (101641, 110575); (110580, 110580); (110588, 110588);
   (110591, 110591); (110883, 110927); (110931, 110947); (110952, 110959);
   (111356, 113663); (113771, 113775); (113789, 113791); (113801, 113807);
   (113818, 113819); (113824, 118527); (118574, 118575); (118599, 118607);
   (118724, 118783); (119030, 119039); (119079, 119080); (119155, 119162);
   (119275, 119295); (119366, 119519); (119540, 119551); (119639, 119647);
   (119673, 119807); (119893, 119893); (119965, 119965); (119968, 119969);
   (119971, 119972); (119975, 119976); (119981, 119981); (119994, 119994);
   (119996, 119996); (120004, 120004); (120070, 120070); (120075, 120076);
   (120085, 120085); (120093, 120093); (120122, 120122); (120127, 120127);
   (120133, 120133); (120135, 120137); (120145, 120145); (120486, 120487);
   (120780, 120781); (121484, 121498); (121504, 121504); (121520, 122623);
   (122655, 122879); (122887, 122887); (122905, 122906); (122914, 122914);
   (122917, 122917); (122923, 123135); (123181, 123183); (123198, 123199);
   (123210, 123213); (123216, 123535); (123567, 123583); (123642, 123646);
   (123648, 124895); (124903, 124903); (124908, 124908); (124911, 124911);
   (124927, 124927); (125125, 125126); (125143, 125183); (125260, 125263);
   (125274, 125277); (125280, 126064); (126133, 126208); (126270, 126463);
   (126468, 126468); (126496, 126496); (126499, 126499); (126501, 126502);
   (126504, 126504); (126515, 126515); (126520, 126520); (126522, 126522);
   (126524, 126529); (126531, 126534); (126536, 126536); (126538, 126538);
   (126540, 126540); (126544, 126544); (126547, 126547); (126549, 126550);
   (126552, 126552); (126554, 126554); (126556, 126556); (126558, 126558);
   (126560, 126560); (126563, 126563); (126565, 126566); (126571, 126571);
   (126579, 126579); (126584, 126584); (126589, 126589); (126591, 126591);
   (126602, 126602); (126620, 126624); (126628, 126628); (126634, 126634);
   (126652, 126703); (126706, 126975); (127020, 127023); (127124, 127135);
   (127151, 127152); (127168, 127168); (127184, 127184); (127222, 127231);
   (127406, 127461); (127491, 127503); (127548, 127551); (127561, 127567);
   (127570, 127583); (127590, 127743); (128728, 128732); (128749, 128751);
   (128765, 128767); (128884, 128895); (128985, 128991); (129004, 129007);
   (129009, 129023); (129036, 129039); (129096, 129103); (129114, 129119);
   (129160, 129167); (129198, 129199); (129202, 129279); (129620, 129631);
   (129646, 129647); (129653, 129655); (129661, 129663); (129671, 129679);
   (129709, 129711); (129723, 129727); (129734, 129743); (129754, 129759);
   (129768, 129775); (129783, 129791); (129939, 129939); (129995, 130031);
   (130042, 131071); (173792, 173823); (177977, 177983); (178206, 178207);
   (183970, 183983); (191457, 194559); (195102, 196607); (201547, 917759);
   (918000, 1114111)]%N.

(** [Py_UNICODE_ISPRINTABLE] *)
Definition is_printable (n : N) : bool :=
  negb (existsb (fun r => (fst r <=? n) && (n <=? snd r))%N nonprintable_ranges).

Definition repr_code_point (quote : ascii) (n : N) : string :=
  if (n =? N_of_ascii quote)%N || (n =? 92)%N then
    String backslash (String (ascii_of_N n) "")
  else if (n =? 9)%N then String backslash "t"
  else if (n =? 10)%N then String backslash "n"
  else if (n =? 13)%N then String backslash "r"
  else if is_printable n then utf8_encode n
  else if (n <? 256)%N then String backslash (String "x" (hex2 n))
  else if (n <? 65536)%N then String backslash (String "u" (hex4 n))
  else String backslash (String "U" (hex4 (n / 65536) ++ hex4 (n mod 65536))).

Definition str_repr (s : string) : string :=
  let quote : ascii :=
    if contains "'" s && negb (contains dquote s) then dquote else "'"%char in
  String quote (join_all (map (repr_code_point quote) (code_points s)))
    ++ String quote "".

(** *** The runtime *)

Definition py311 : runtime := Build_runtime loads float_repr str_repr.

(** A line of JSON written with apostrophes for its double quotes. *)
Fixpoint q (s : string) : string :=
  match s with
  | EmptyString => ""
  | String c rest => String (if Ascii.eqb c "'" then dquote else c) (q rest)
  end.

End CPython.

(** ** Sample sessions *)

Module Sample.

Definition nl : string := String newline "".

Definition line_complexity : string :=
  CPython.q "{'jsonrpc':'2.0','id':1,'method':'analyze_complexity','params':{'file':'a.py'}}"
    ++ nl.

Definition line_unknown : string := CPython.q "{'id':2,'method':'nope'}" ++ nl.

Definition line_malformed : string := "not json" ++ nl.

Definition line_fault : string :=
  CPython.q "{'id': 7, 'method': 'find_patterns', 'params': []}" ++ nl.

Definition line_number : string := "42" ++ nl.

Definition session : string :=
  line_complexity ++ line_unknown ++ line_malformed ++ line_fault ++ line_number.

(** The process about to read [input]. *)
Definition start (input : string) : process := {| stdin := input; trace := [] |}.

Definition request_fault : value :=
  VDict [ ("id", VInt 7); ("method", VStr "find_patterns"); ("params", VList []) ].

Definition request_list_params : value :=
  VDict [ ("id", VInt 1); ("method", VStr "find_patterns");
          ("params", VList [VInt 1]) ].

Definition request_empty_params : value :=
  VDict [ ("id", VInt 1); ("method", VStr "find_patterns"); ("params", VDict []) ].

End Sample.

(** ** Vocabulary of the further statements *)

(** The lines read from [stdin] in a trace, oldest first. *)
Fixpoint reads (tr : list event) : list string :=
  match tr with
  | [] => []
  | Readline line :: rest => line :: reads rest
  | _ :: rest => reads rest
  end.

(** A text that is empty or ends with a newline: no line of it is
    left unfinished. *)
Fixpoint complete (s : string) : bool :=
  match s with
  | EmptyString => true
  | String c EmptyString => Ascii.eqb c newline
  | String _ rest => complete rest
  end.

(** [response["error"]["code"]] of a response object, when it has
    one. *)
Definition error_code (response : value) : option value :=
  match response with
  | VDict items =>
      match dict_lookup items "error" with
      | Some (VDict err) => dict_lookup err "code"
      | _ => None
      end
  | _ => None
  end.

(** The method a request asks for: [request.get('method')] on a
    request object. *)
Definition method_of (request : value) : value :=
  match request with
  | VDict items => dict_get items "method" VNone
  | _ => VNone
  end.

Module Requests.

Definition complexity_call : dict :=
  [ ("jsonrpc", VStr "2.0"); ("id", VInt 1);
    ("method", VStr "analyze_complexity");
    ("params", VDict [ ("file", VStr "a.py") ]) ].

Definition patterns_call : dict :=
  [ ("id", VInt 3); ("method", VStr "find_patterns");
    ("params", VDict [ ("file", VStr "src/app.py") ]) ].

Definition refactoring_call : dict :=
  [ ("id", VInt 4); ("method", VStr "suggest_refactoring");
    ("params", VDict [ ("file", VStr "a.py") ]) ].

Definition refactoring_call_bare : dict :=
  [ ("method", VStr "suggest_refactoring"); ("id", VInt 4) ].

(** [complexity_call] with another protocol version, a field the
    server does not know, and the fields in another order. *)
Definition complexity_call_variant : dict :=
  [ ("trace", VBool true);
    ("params", VDict [ ("file", VStr "a.py") ]);
    ("method", VStr "analyze_complexity");
    ("jsonrpc", VStr "1.0"); ("id", VInt 1) ].

End Requests.

(** ** JSON texts *)

Module RFC8259.

(** The whitespace of RFC 8259: space, horizontal tab, line feed,
    carriage return. *)
Definition ws (c : ascii) : bool :=
  let n := N_of_ascii c in
  ((n =? 32) || (n =? 9) || (n =? 10) || (n =? 13))%N.

(** The characters a JSON value can begin with.  By the grammar of
    RFC 8259 a value is an object, an array, a string, a number, or
    one of the names [false], [null] and [true]: it begins with a
    brace, a bracket, a quotation mark, a minus sign or a digit, or
    with [f], [n] or [t]. *)
Definition value_start (c : ascii) : bool :=
  let n := N_of_ascii c in
  ((n =? 123) || (n =? 91) || (n =? 34) || (n =? 45)
   || ((48 <=? n) && (n <=? 57))
   || (n =? 102) || (n =? 110) || (n =? 116))%N.

(** A JSON text is a value between optional whitespace, so its first
    character after the whitespace begins a value.  A text for which
    [begins_value] is [false] is not valid JSON. *)
Fixpoint begins_value (s : string) : bool :=
  match s with
  | EmptyString => false
  | String c rest => if ws c then begins_value rest else value_start c
  end.

End RFC8259.

Module Lines.

(** A line that is not JSON and that [json.loads] decodes. *)
Definition nan : string := "NaN" ++ Sample.nl.

(** A numeral of 4301 digits followed by a stray word: a line that
    is not JSON and on which [json.loads] raises a [ValueError]. *)
Definition digits : string := "1" ++ CPython.zeros 4300 ++ " x" ++ Sample.nl.

End Lines.

(** * Properties *)

(** ** Lines of a text *)

Lemma readline_nonempty (c : ascii) (rest : string) :
  py_not_str (fst (readline (String c rest))) = false.
Proof.
  simpl. destruct (Ascii.eqb c newline); [reflexivity|].
  destruct (readline rest); reflexivity.
Qed.

Lemma readline_append (s : string) :
  fst (readline s) ++ snd (readline s) = s.
Proof.
  induction s as [|c rest IH]; [reflexivity|].
  simpl. destruct (Ascii.eqb c newline); [reflexivity|].
  destruct (readline rest) as [line rest']. simpl in *. now rewrite IH.
Qed.

Lemma readline_shorter (c : ascii) (rest : string) :
  String.length (snd (readline (String c rest))) < String.length (String c rest).
Proof.
  revert c. induction rest as [|c' rest IH]; intros c; simpl.
  - destruct (Ascii.eqb c newline); simpl; lia.
  - destruct (Ascii.eqb c newline); simpl; [lia|].
    specialize (IH c'). simpl in IH.
    destruct (Ascii.eqb c' newline); simpl in *; [lia|].
    destruct (readline rest) as [line rest']. simpl in *. lia.
Qed.

Lemma lines_readline (c : ascii) (rest : string) :
  lines (String c rest)
  = fst (readline (String c rest)) :: lines (snd (readline (String c rest))).
Proof.
  revert c. induction rest as [|c' rest IH]; intros c.
  - simpl. destruct (Ascii.eqb c newline); reflexivity.
  - change (lines (String c (String c' rest)))
      with (if Ascii.eqb c newline then String c "" :: lines (String c' rest)
            else match lines (String c' rest) with
                 | [] => [String c ""]
                 | l :: ls => String c l :: ls
                 end).
    change (readline (String c (String c' rest)))
      with (if Ascii.eqb c newline then (String c "", String c' rest)
            else let (line, rest') := readline (String c' rest) in
                 (String c line, rest')).
    destruct (Ascii.eqb c newline); [reflexivity|].
    rewrite (IH c').
    destruct (readline (String c' rest)) as [line rest']. reflexivity.
Qed.



Lemma string_app_assoc (a b c : string) : (a ++ b) ++ c = a ++ (b ++ c).
Proof.
  induction a as [|x a IH]; [reflexivity|]. simpl. now rewrite IH.
Qed.


(** ** [json.dumps] writes no newline *)












(** ** [handle_request] *)

Section HandleRequest.

Variable py : runtime.
Variable environ : environment.

(** On anything but a [dict] the first field access raises. *)
Lemma handle_request_not_dict (request : value) :
  is_dict request = false ->
  handle_request py environ request
  = Raise (AttributeError
             ("'" ++ type_name request ++ "' object has no attribute 'get'")).
Proof.
  destruct request; intros Hdict; try discriminate; reflexivity.
Qed.

(** The three comparisons of [handle_request] look the method up in
    the registry. *)
Lemma registry_lookup (name : string) :
  dict_lookup (registry py) name
  = if String.eqb name "analyze_complexity" then Some analyze_complexity
    else if String.eqb name "find_patterns" then Some (find_patterns py)
    else if String.eqb name "suggest_refactoring" then Some suggest_refactoring
    else None.
Proof.
  unfold registry. cbn [dict_lookup].
  rewrite (String.eqb_sym "analyze_complexity"),
    (String.eqb_sym "find_patterns"), (String.eqb_sym "suggest_refactoring").
  reflexivity.
Qed.

Lemma registered_lookup (method : value) :
  registered method = true <->
  exists name handler,
    method = VStr name /\ dict_lookup (registry py) name = Some handler.
Proof.
  split.
  - destruct method as [ | | | | name | | ]; try discriminate.
    intros Hreg. exists name. rewrite registry_lookup.
    unfold registered in Hreg.
    destruct (String.eqb name "analyze_complexity"); [eauto|].
    destruct (String.eqb name "find_patterns"); [eauto|].
    destruct (String.eqb name "suggest_refactoring"); [eauto|discriminate].
  - intros (name & handler & -> & Hlookup).
    rewrite registry_lookup in Hlookup. unfold registered.
    destruct (String.eqb name "analyze_complexity"); [reflexivity|].
    destruct (String.eqb name "find_patterns"); [reflexivity|].
    destruct (String.eqb name "suggest_refactoring"); [reflexivity|discriminate].
Qed.

(** A registered method is called on [params.get('file')], and the
    call is where a [params] that is not a [dict] raises. *)
Lemma handle_request_registered (items : dict) (name : string)
    (handler : CodeAnalyzer -> value -> value) :
  dict_get items "method" VNone = VStr name ->
  dict_lookup (registry py) name = Some handler ->
  handle_request py environ (VDict items)
  = match dict_get items "params" (VDict []) with
    | VDict p =>
        Return (success_response
                  (dict_get items "id" VNone)
                  (handler (CodeAnalyzer_init environ) (dict_get p "file" VNone)))
    | params =>
        Raise (AttributeError
                 ("'" ++ type_name params ++ "' object has no attribute 'get'"))
    end.
Proof.
  intros Hmethod Hlookup. rewrite registry_lookup in Hlookup.
  unfold handle_request. cbn [py_get bind]. rewrite Hmethod. cbn [py_eq_str].
  destruct (String.eqb name "analyze_complexity");
    [|destruct (String.eqb name "find_patterns");
      [|destruct (String.eqb name "suggest_refactoring"); [|discriminate]]];
    injection Hlookup as <-;
    destruct (dict_get items "params" (VDict [])); reflexivity.
Qed.

(** Any other method is answered without looking at [params]. *)
Lemma handle_request_unregistered (items : dict) :
  registered (dict_get items "method" VNone) = false ->
  handle_request py environ (VDict items)
  = Return (success_response
              (dict_get items "id" VNone)
              (VDict [ ("error",
                        VStr ("Unknown method: "
                              ++ py_str py (dict_get items "method" VNone))) ])).
Proof.
  intros Hreg. unfold handle_request. cbn [py_get bind].
  destruct (dict_get items "method" VNone) as [ | | | | name | | ];
    try reflexivity.
  unfold registered in Hreg. cbn [py_eq_str].
  destruct (String.eqb name "analyze_complexity"); [discriminate|].
  destruct (String.eqb name "find_patterns"); [discriminate|].
  destruct (String.eqb name "suggest_refactoring"); [discriminate|].
  reflexivity.
Qed.

(** The only exception [handle_request] raises is the
    [AttributeError] of a field access. *)
Lemma handle_request_raises (request : value) (e : exn) :
  handle_request py environ request = Raise e ->
  exists msg, e = AttributeError msg.
Proof.
  destruct request as [ | | | | | | items ];
    try (intros [= <-]; eexists; reflexivity).
  destruct (registered (dict_get items "method" VNone)) eqn:Hreg.
  - apply registered_lookup in Hreg as (name & handler & Hmethod & Hlookup).
    rewrite (handle_request_registered items name handler Hmethod Hlookup).
    destruct (dict_get items "params" (VDict []));
      intros [= <-]; eexists; reflexivity.
  - rewrite (handle_request_unregistered items Hreg). discriminate.
Qed.

(** ** The loop *)

Lemma iteration_eof (st : process) :
  stdin st = "" ->
  iteration py environ st
  = (Break, {| stdin := ""; trace := (trace st ++ [Readline ""])%list |}).
Proof.
  intros Heof. unfold iteration, try_body, sys_stdin_readline.
  rewrite Heof. reflexivity.
Qed.

Lemma iteration_line (st : process) :
  stdin st <> "" ->
  iteration py environ st
  = (Continue,
     {| stdin := snd (readline (stdin st));
        trace := (trace st
                  ++ line_events py environ (fst (readline (stdin st))))%list |}).
Proof.
  intros Hline. destruct (stdin st) as [|c rest] eqn:Hstdin; [congruence|].
  unfold iteration, try_body, sys_stdin_readline. rewrite Hstdin.
  pose proof (readline_nonempty c rest) as Hnonempty.
  destruct (readline (String c rest)) as [line rest'].
  cbn [fst snd] in *. rewrite Hnonempty.
  unfold line_events, output_for, response_to.
  unfold sys_stdout_flush, sys_stdout_write, emit. cbn [stdin trace].
  destruct (json_loads py line) as [request|e];
    [destruct (handle_request py environ request) as [response|e]|];
    try destruct (is_JSONDecodeError e);
    cbn [stdin trace]; now rewrite <- !app_assoc.
Qed.

(** With more fuel than unread characters the loop reaches the end of
    the stream, having run one pass per line and one last read. *)
Lemma main_loop_lines (fuel : nat) (st : process) :
  String.length (stdin st) < fuel ->
  main_loop py environ fuel st
  = Some {| stdin := "";
            trace := (trace st
                      ++ flat_map (line_events py environ) (lines (stdin st))
                      ++ [Readline ""])%list |}.
Proof.
  revert st. induction fuel as [|fuel IH]; intros st Hfuel; [lia|].
  cbn [main_loop].
  destruct (stdin st) as [|c rest] eqn:Hstdin.
  - rewrite iteration_eof by exact Hstdin. reflexivity.
  - rewrite iteration_line by congruence. rewrite Hstdin.
    rewrite IH; cbn [stdin trace].
    + rewrite lines_readline. cbn [flat_map].
      now rewrite <- !app_assoc.
    + pose proof (readline_shorter c rest). lia.
Qed.

Lemma written_app (tr1 tr2 : list event) :
  written (tr1 ++ tr2) = (written tr1 ++ written tr2)%list.
Proof.
  induction tr1 as [|[line|data|] tr1 IH]; cbn [written app];
    [reflexivity| | |]; now rewrite IH.
Qed.

Lemma written_line_events (ls : list string) :
  written (flat_map (line_events py environ) ls ++ [Readline ""])
  = map (output_for py environ) ls.
Proof.
  induction ls as [|l ls IH]; [reflexivity|].
  cbn [flat_map map line_events app written] in *. now rewrite IH.
Qed.

End HandleRequest.

Section Loop.

Variable py : runtime.
Variable environ : environment.

Lemma iteration_answered (st : process) :
  stdin st <> "" ->
  iteration py environ st
  = (Continue,
     answered py st (response_to py environ (fst (readline (stdin st))))).
Proof.
  intros Hline. now rewrite iteration_line.
Qed.

Lemma main_loop_continue (st st' : process) (fuel : nat) :
  iteration py environ st = (Continue, st') ->
  main_loop py environ (S fuel) st = main_loop py environ fuel st'.
Proof.
  intros Hiter. cbn [main_loop]. now rewrite Hiter.
Qed.

Lemma main_loop_ends (fuel : nat) (st final : process) :
  main_loop py environ fuel st = Some final ->
  stdin final = "" /\ exists tr, trace final = (tr ++ [Readline ""])%list.
Proof.
  revert st. induction fuel as [|fuel IH]; intros st; [discriminate|].
  cbn [main_loop].
  destruct (stdin st) as [|c rest] eqn:Hstdin.
  - rewrite iteration_eof by exact Hstdin. intros [= <-]. cbn. eauto.
  - rewrite iteration_line by congruence. apply IH.
Qed.

(** What [handle_request] returns is a success envelope. *)
Lemma handle_request_returns (request response : value) :
  handle_request py environ request = Return response ->
  exists items result,
    request = VDict items
    /\ response = success_response (dict_get items "id" VNone) result.
Proof.
  destruct request as [ | | | | | | items ]; try discriminate.
  destruct (registered (dict_get items "method" VNone)) eqn:Hreg.
  - apply (registered_lookup py) in Hreg as (name & handler & Hmethod & Hlookup).
    rewrite (handle_request_registered py environ items name handler Hmethod Hlookup).
    destruct (dict_get items "params" (VDict [])); try discriminate.
    intros [= <-]. eauto.
  - rewrite (handle_request_unregistered py environ items Hreg).
    intros [= <-]. eauto.
Qed.

End Loop.

(** * The claims *)


(** C2, as the code has it.  The [except] clause is for
    [json.JSONDecodeError]: a line on which [json.loads] raises it is
    answered with the error envelope whose id is [None], whose code is
    -32700 and whose message is ["Parse error: "] followed by the text
    of the exception; the pass ends the [try] normally, and the loop
    goes on with the rest of the stream.  A line that is not JSON and
    on which [json.loads] does not raise this exception is not
    answered so. *)
Theorem parse_error_answered_and_loop_continues
    (py : runtime) (environ : environment) (st : process) (msg : string) :
  stdin st <> "" ->
  json_loads py (fst (readline (stdin st))) = Raise (JSONDecodeError msg) ->
  let response :=
    VDict [ ("jsonrpc", VStr "2.0");
            ("id", VNone);
            ("error", VDict [ ("code", VInt (-32700));
                              ("message", VStr ("Parse error: " ++ msg)) ]) ] in
  iteration py environ st = (Continue, answered py st response)
  /\ (forall fuel,
        main_loop py environ (S fuel) st
        = main_loop py environ fuel (answered py st response))
  /\ (forall fuel,
        String.length (stdin st) < S fuel ->
        main_loop py environ (S fuel) st
        = Some {| stdin := "";
                  trace := (trace (answered py st response)
                            ++ flat_map (line_events py environ)
                                 (lines (snd (readline (stdin st))))
                            ++ [Readline ""])%list |}).
Proof.
  intros Hline Hloads response.
  assert (Hiter : iteration py environ st = (Continue, answered py st response)).
  { rewrite iteration_answered by exact Hline.
    unfold response_to. rewrite Hloads. reflexivity. }
  split; [exact Hiter|]. split.
  - intros fuel. now apply main_loop_continue.
  - intros fuel Hfuel. rewrite (main_loop_continue py environ st _ fuel Hiter).
    rewrite main_loop_lines; [reflexivity|].
    cbn [answered stdin].
    destruct (stdin st) as [|c rest]; [congruence|].
    pose proof (readline_shorter c rest). lia.
Qed.

(** C3.  On a request object whose method is absent, is not a string,
    or is a string other than the three registered names,
    [handle_request] does not raise: it returns the success envelope,
    with the request's id ([None] when absent) and the result
    [{"error": "Unknown method: <method>"}], where [<method>] is the
    method as an f-string formats it ([None] when absent); the
    envelope has a ["result"] key and no ["error"] key. *)
Theorem unknown_method_is_a_success_response
    (py : runtime) (environ : environment) (items : dict) :
  registered (dict_get items "method" VNone) = false ->
  let response :=
    [ ("jsonrpc", VStr "2.0");
      ("id", dict_get items "id" VNone);
      ("result",
       VDict [ ("error",
                VStr ("Unknown method: "
                      ++ py_str py (dict_get items "method" VNone))) ]) ] in
  handle_request py environ (VDict items) = Return (VDict response)
  /\ dict_has response "result" = true
  /\ dict_has response "error" = false.
Proof.
  intros Hreg response. split; [|split; reflexivity].
  now rewrite (handle_request_unregistered py environ items Hreg).
Qed.

(** C4.  On a request object with a registered method and with params
    absent or an object, [handle_request] returns a response whose id
    is the request's id, whatever value that is, and [None] when the
    request has none. *)
Theorem registered_method_echoes_id
    (py : runtime) (environ : environment) (items : dict) :
  registered (dict_get items "method" VNone) = true ->
  is_dict (dict_get items "params" (VDict [])) = true ->
  exists result,
    handle_request py environ (VDict items)
    = Return (VDict [ ("jsonrpc", VStr "2.0");
                      ("id", match dict_lookup items "id" with
                             | Some id => id
                             | None => VNone
                             end);
                      ("result", result) ]).
Proof.
  intros Hreg Hparams.
  apply (registered_lookup py) in Hreg as (name & handler & Hmethod & Hlookup).
  rewrite (handle_request_registered py environ items name handler Hmethod Hlookup).
  destruct (dict_get items "params" (VDict [])); try discriminate.
  eexists. reflexivity.
Qed.

(** C5, as the code has it.  When the line decodes and
    [handle_request] raises, the [except Exception] clause answers
    with the error envelope whose code is -32603, whose message is
    ["Internal error: "] followed by the text of the exception, and
    whose id is [None], whether or not the request carried an id; the
    loop then goes on with the rest of the stream. *)
Theorem handler_fault_answered_with_null_id
    (py : runtime) (environ : environment) (st : process)
    (request : value) (e : exn) :
  stdin st <> "" ->
  json_loads py (fst (readline (stdin st))) = Return request ->
  handle_request py environ request = Raise e ->
  let response :=
    VDict [ ("jsonrpc", VStr "2.0");
            ("id", VNone);
            ("error", VDict [ ("code", VInt (-32603));
                              ("message", VStr ("Internal error: " ++ exn_str e)) ]) ] in
  iteration py environ st = (Continue, answered py st response)
  /\ (forall fuel,
        main_loop py environ (S fuel) st
        = main_loop py environ fuel (answered py st response)).
Proof.
  intros Hline Hloads Hraise response.
  assert (Hiter : iteration py environ st = (Continue, answered py st response)).
  { rewrite iteration_answered by exact Hline.
    unfold response_to. rewrite Hloads, Hraise.
    destruct (handle_request_raises py environ request e Hraise) as [msg ->].
    reflexivity. }
  split; [exact Hiter|].
  intros fuel. now apply main_loop_continue.
Qed.

(** C6, as the code has it.  On a request object with a registered
    method, the method is called on the ["file"] entry of the params
    when the params are an object, and on the ["file"] entry of the
    empty mapping, which is [None], when the request has no params;
    when the params are there and are not an object, the field access
    on them raises an [AttributeError] and no response is returned. *)
Theorem params_taken_from_request
    (py : runtime) (environ : environment) (items : dict)
    (name : string) (handler : CodeAnalyzer -> value -> value) :
  dict_get items "method" VNone = VStr name ->
  dict_lookup (registry py) name = Some handler ->
  let analyzer := CodeAnalyzer_init environ in
  let id := dict_get items "id" VNone in
  (forall p,
      dict_lookup items "params" = Some (VDict p) ->
      handle_request py environ (VDict items)
      = Return (success_response id (handler analyzer (dict_get p "file" VNone))))
  /\ (dict_lookup items "params" = None ->
      handle_request py environ (VDict items)
      = Return (success_response id (handler analyzer (dict_get [] "file" VNone))))
  /\ (forall params,
      dict_lookup items "params" = Some params ->
      is_dict params = false ->
      handle_request py environ (VDict items)
      = Raise (AttributeError
                 ("'" ++ type_name params ++ "' object has no attribute 'get'"))).
Proof.
  intros Hmethod Hlookup analyzer id.
  rewrite (handle_request_registered py environ items name handler Hmethod Hlookup).
  repeat split.
  - intros p Hparams.
    replace (dict_get items "params" (VDict [])) with (VDict p)
      by (unfold dict_get; now rewrite Hparams).
    reflexivity.
  - intros Hparams.
    replace (dict_get items "params" (VDict [])) with (VDict [])
      by (unfold dict_get; now rewrite Hparams).
    reflexivity.
  - intros params Hparams Hdict.
    replace (dict_get items "params" (VDict [])) with params
      by (unfold dict_get; now rewrite Hparams).
    destruct params; try discriminate; reflexivity.
Qed.

(** C7.  On every input the loop ends, with the stream exhausted, and
    the same way for every amount of fuel above the length of the
    input; a pass leaves the loop exactly when no text is left to
    read, so that a run that ends has its stream exhausted and the
    read of the empty line as its last operation; and on the empty
    input the run is that single read, with nothing written. *)
Theorem main_ends_at_end_of_stream (py : runtime) (environ : environment) :
  (forall input,
      exists final,
        main py environ input = Some final
        /\ stdin final = ""
        /\ forall fuel,
            String.length input < fuel ->
            main_loop py environ fuel {| stdin := input; trace := [] |} = Some final)
  /\ (forall st, fst (iteration py environ st) = Break <-> stdin st = "")
  /\ (forall fuel st final,
        main_loop py environ fuel st = Some final ->
        stdin final = "" /\ exists tr, trace final = (tr ++ [Readline ""])%list)
  /\ main py environ "" = Some {| stdin := ""; trace := [Readline ""] |}
  /\ written [Readline ""] = [].
Proof.
  split; [|split; [|split; [|split]]].
  - intros input. eexists. split; [|split].
    + unfold main. apply main_loop_lines. cbn [stdin]. lia.
    + reflexivity.
    + intros fuel Hfuel. now apply main_loop_lines.
  - intros st. split.
    + intros Hbreak. destruct (stdin st) as [|c rest] eqn:Hstdin; [reflexivity|].
      rewrite iteration_line in Hbreak by congruence. discriminate.
    + intros Heof. now rewrite iteration_eof.
  - apply main_loop_ends.
  - reflexivity.
  - reflexivity.
Qed.

(** C8.  The response object written for a line is a [dict] with
    exactly one of the keys ["result"] and ["error"]: ["result"] when
    the line decodes and [handle_request] returns, in which case the
    object is what it returned, and ["error"] otherwise. *)
Theorem response_has_result_or_error_not_both
    (py : runtime) (environ : environment) (st : process) :
  stdin st <> "" ->
  exists response,
    iteration py environ st = (Continue, answered py st (VDict response))
    /\ xorb (dict_has response "result") (dict_has response "error") = true
    /\ (dict_has response "result" = true <->
        exists request,
          json_loads py (fst (readline (stdin st))) = Return request
          /\ handle_request py environ request = Return (VDict response)).
Proof.
  intros Hline. rewrite iteration_answered by exact Hline.
  unfold response_to.
  destruct (json_loads py (fst (readline (stdin st)))) as [request|e] eqn:Hloads.
  - destruct (handle_request py environ request) as [response|e] eqn:Hhandle.
    + destruct (handle_request_returns py environ request response Hhandle)
        as (items & result & -> & ->).
      eexists. split; [reflexivity|]. split; [reflexivity|].
      split; [|reflexivity]. intros _. exists (VDict items). now split.
    + destruct (handle_request_raises py environ request e Hhandle) as [msg ->].
      eexists. split; [reflexivity|]. split; [reflexivity|].
      split; [discriminate|]. intros (request' & [= <-] & Hreturn).
      rewrite Hhandle in Hreturn. discriminate.
  - destruct (is_JSONDecodeError e);
      (eexists; split; [reflexivity|]; split; [reflexivity|];
       split; [discriminate|]; intros (request' & [=] & _)).
Qed.

(** C9.  What [handle_request] does with a request depends on the
    environment through [ANALYSIS_LEVEL] alone, and what the server
    writes for a line depends on nothing but the line: when the same
    line is at two places of an input, or of two inputs, and the two
    runs have the same [ANALYSIS_LEVEL], the two responses written are
    the same text. *)
Theorem same_request_same_response
    (py : runtime) (env1 env2 : environment) (request : value)
    (input1 input2 : string) (i j : nat) (line : string) :
  dict_get env1 "ANALYSIS_LEVEL" "basic" = dict_get env2 "ANALYSIS_LEVEL" "basic" ->
  nth_error (lines input1) i = Some line ->
  nth_error (lines input2) j = Some line ->
  handle_request py env1 request = handle_request py env2 request
  /\ exists final1 final2 out,
      main py env1 input1 = Some final1
      /\ main py env2 input2 = Some final2
      /\ nth_error (written (trace final1)) i = Some out
      /\ nth_error (written (trace final2)) j = Some out.
Proof.
  intros Hlevel Hi Hj.
  assert (Hsame : forall r, handle_request py env1 r = handle_request py env2 r).
  { intros r. unfold handle_request, CodeAnalyzer_init. now rewrite Hlevel. }
  split; [apply Hsame|].
  unfold main. rewrite !main_loop_lines by (cbn [stdin]; lia).
  do 2 eexists. exists (output_for py env1 line).
  split; [reflexivity|]. split; [reflexivity|].
  cbn [stdin trace app]. rewrite !written_line_events.
  split.
  - now apply map_nth_error.
  - replace (output_for py env1 line) with (output_for py env2 line).
    + now apply map_nth_error.
    + unfold output_for, response_to.
      destruct (json_loads py line); [now rewrite Hsame|reflexivity].
Qed.

(** C10.  When a line decodes to something that is not an object, the
    first field access of [handle_request] raises an [AttributeError];
    the line is answered with the internal error envelope, code -32603
    and id [None], not with the parse error one, and the loop goes
    on. *)
Theorem non_object_answered_with_internal_error
    (py : runtime) (environ : environment) (st : process) (request : value) :
  stdin st <> "" ->
  json_loads py (fst (readline (stdin st))) = Return request ->
  is_dict request = false ->
  let fault :=
    AttributeError ("'" ++ type_name request ++ "' object has no attribute 'get'") in
  let response :=
    VDict [ ("jsonrpc", VStr "2.0");
            ("id", VNone);
            ("error",
             VDict [ ("code", VInt (-32603));
                     ("message",
                      VStr ("Internal error: '" ++ type_name request
                            ++ "' object has no attribute 'get'")) ]) ] in
  handle_request py environ request = Raise fault
  /\ iteration py environ st = (Continue, answered py st response)
  /\ response <> parse_error_response fault
  /\ (forall fuel,
        main_loop py environ (S fuel) st
        = main_loop py environ fuel (answered py st response)).
Proof.
  intros Hline Hloads Hdict fault response.
  pose proof (handle_request_not_dict py environ request Hdict) as Hraise.
  assert (Hiter : iteration py environ st = (Continue, answered py st response)).
  { rewrite iteration_answered by exact Hline.
    unfold response_to. rewrite Hloads, Hraise. reflexivity. }
  split; [exact Hraise|]. split; [exact Hiter|]. split.
  - unfold response, parse_error_response. intros [=].
  - intros fuel. now apply main_loop_continue.
Qed.

(** * The server on CPython's runtime *)







(** The scenarios of the specification. *)

Example scenario_complexity :
  option_map stdout_text (main CPython.py311 [] Sample.line_complexity)
  = Some (CPython.q
            "{'jsonrpc': '2.0', 'id': 1, 'result': {'file': 'a.py', 'complexity': {'cyclomatic': 5, 'cognitive': 8, 'lines_of_code': 150, 'functions': 10}, 'level': 'basic'}}"
          ++ Sample.nl).
Proof. vm_compute. reflexivity. Qed.

Example scenario_unknown_method :
  option_map stdout_text (main CPython.py311 [] Sample.line_unknown)
  = Some (CPython.q
            "{'jsonrpc': '2.0', 'id': 2, 'result': {'error': 'Unknown method: nope'}}"
          ++ Sample.nl).
Proof. vm_compute. reflexivity. Qed.

Example scenario_malformed_then_next :
  option_map stdout_text
    (main CPython.py311 [] (Sample.line_malformed ++ Sample.line_unknown))
  = Some (CPython.q
            "{'jsonrpc': '2.0', 'id': null, 'error': {'code': -32700, 'message': 'Parse error: Expecting value: line 1 column 1 (char 0)'}}"
          ++ Sample.nl
          ++ CPython.q
               "{'jsonrpc': '2.0', 'id': 2, 'result': {'error': 'Unknown method: nope'}}"
          ++ Sample.nl).
Proof. vm_compute. reflexivity. Qed.

Example scenario_blank_line :
  response_to CPython.py311 [] Sample.nl
  = parse_error_response
      (JSONDecodeError "Expecting value: line 2 column 1 (char 1)").
Proof. vm_compute. reflexivity. Qed.

(** [NaN] is a value for [json.loads]: the line is not a parse
    error. *)
Example scenario_nan :
  response_to CPython.py311 [] ("NaN" ++ Sample.nl)
  = internal_error_response
      (AttributeError "'float' object has no attribute 'get'").
Proof. vm_compute. reflexivity. Qed.

Example scenario_level_from_environment :
  handle_request CPython.py311 [("ANALYSIS_LEVEL", "deep")]
    (VDict [ ("method", VStr "analyze_complexity") ])
  = Return (success_response VNone
              (VDict [ ("file", VNone);
                       ("complexity", VDict [ ("cyclomatic", VInt 5);
                                              ("cognitive", VInt 8);
                                              ("lines_of_code", VInt 150);
                                              ("functions", VInt 10) ]);
                       ("level", VStr "deep") ])).
Proof. reflexivity. Qed.

(** ** Instances of the claims *)


Lemma parse_error_answered_and_loop_continues_witness :
  let st := Sample.start (Sample.line_malformed ++ Sample.line_unknown) in
  let response :=
    VDict [ ("jsonrpc", VStr "2.0");
            ("id", VNone);
            ("error",
             VDict [ ("code", VInt (-32700));
                     ("message",
                      VStr "Parse error: Expecting value: line 1 column 1 (char 0)") ]) ] in
  stdin st <> ""
  /\ json_loads CPython.py311 (fst (readline (stdin st)))
     = Raise (JSONDecodeError "Expecting value: line 1 column 1 (char 0)")
  /\ iteration CPython.py311 [] st = (Continue, answered CPython.py311 st response).
Proof.
  intros st response.
  assert (Hline : stdin st <> "") by (vm_compute; discriminate).
  assert (Hloads : json_loads CPython.py311 (fst (readline (stdin st)))
                   = Raise (JSONDecodeError "Expecting value: line 1 column 1 (char 0)"))
    by (vm_compute; reflexivity).
  split; [exact Hline|]. split; [exact Hloads|].
  exact (proj1 (parse_error_answered_and_loop_continues
                  CPython.py311 [] st _ Hline Hloads)).
Defined.

Lemma unknown_method_is_a_success_response_witness :
  let items := [ ("id", VInt 2); ("method", VStr "nope") ] in
  registered (dict_get items "method" VNone) = false
  /\ handle_request CPython.py311 [] (VDict items)
     = Return (VDict [ ("jsonrpc", VStr "2.0");
                       ("id", VInt 2);
                       ("result", VDict [ ("error", VStr "Unknown method: nope") ]) ]).
Proof.
  intros items. split; [reflexivity|].
  exact (proj1 (unknown_method_is_a_success_response
                  CPython.py311 [] items eq_refl)).
Defined.

Lemma registered_method_echoes_id_witness :
  let items := [ ("jsonrpc", VStr "2.0"); ("id", VStr "req-1");
                 ("method", VStr "suggest_refactoring") ] in
  registered (dict_get items "method" VNone) = true
  /\ is_dict (dict_get items "params" (VDict [])) = true
  /\ exists result,
      handle_request CPython.py311 [] (VDict items)
      = Return (VDict [ ("jsonrpc", VStr "2.0");
                        ("id", VStr "req-1");
                        ("result", result) ]).
Proof.
  intros items. split; [reflexivity|]. split; [reflexivity|].
  exact (registered_method_echoes_id CPython.py311 [] items eq_refl eq_refl).
Defined.

Lemma handler_fault_answered_with_null_id_witness :
  let st := Sample.start Sample.line_fault in
  let fault := AttributeError "'list' object has no attribute 'get'" in
  stdin st <> ""
  /\ json_loads CPython.py311 (fst (readline (stdin st))) = Return Sample.request_fault
  /\ handle_request CPython.py311 [] Sample.request_fault = Raise fault
  /\ iteration CPython.py311 [] st
     = (Continue, answered CPython.py311 st (internal_error_response fault)).
Proof.
  intros st fault.
  assert (Hline : stdin st <> "") by (vm_compute; discriminate).
  assert (Hloads : json_loads CPython.py311 (fst (readline (stdin st)))
                   = Return Sample.request_fault) by (vm_compute; reflexivity).
  assert (Hraise : handle_request CPython.py311 [] Sample.request_fault = Raise fault)
    by reflexivity.
  split; [exact Hline|]. split; [exact Hloads|]. split; [exact Hraise|].
  exact (proj1 (handler_fault_answered_with_null_id
                  CPython.py311 [] st _ _ Hline Hloads Hraise)).
Defined.

Lemma params_taken_from_request_witness :
  let items := [ ("method", VStr "find_patterns");
                 ("params", VDict [ ("file", VStr "a.py") ]) ] in
  dict_get items "method" VNone = VStr "find_patterns"
  /\ dict_lookup (registry CPython.py311) "find_patterns"
     = Some (find_patterns CPython.py311)
  /\ handle_request CPython.py311 [] (VDict items)
     = Return (success_response VNone
                 (find_patterns CPython.py311 (CodeAnalyzer_init []) (VStr "a.py"))).
Proof.
  intros items. split; [reflexivity|]. split; [reflexivity|].
  exact (proj1 (params_taken_from_request CPython.py311 [] items
                  "find_patterns" (find_patterns CPython.py311) eq_refl eq_refl)
           _ eq_refl).
Defined.

Lemma response_has_result_or_error_not_both_witness :
  let st := Sample.start Sample.session in
  stdin st <> ""
  /\ exists response,
      iteration CPython.py311 [] st
      = (Continue, answered CPython.py311 st (VDict response))
      /\ xorb (dict_has response "result") (dict_has response "error") = true
      /\ (dict_has response "result" = true <->
          exists request,
            json_loads CPython.py311 (fst (readline (stdin st))) = Return request
            /\ handle_request CPython.py311 [] request = Return (VDict response)).
Proof.
  intros st.
  assert (Hline : stdin st <> "") by (vm_compute; discriminate).
  split; [exact Hline|].
  exact (response_has_result_or_error_not_both CPython.py311 [] st Hline).
Defined.

Lemma same_request_same_response_witness :
  let env1 : environment := [] in
  let env2 : environment := [ ("HOME", "/root") ] in
  let input2 := Sample.line_unknown ++ Sample.line_complexity in
  dict_get env1 "ANALYSIS_LEVEL" "basic" = dict_get env2 "ANALYSIS_LEVEL" "basic"
  /\ nth_error (lines Sample.session) 1 = Some Sample.line_unknown
  /\ nth_error (lines input2) 0 = Some Sample.line_unknown
  /\ handle_request CPython.py311 env1 Sample.request_empty_params
     = handle_request CPython.py311 env2 Sample.request_empty_params
  /\ exists final1 final2 out,
      main CPython.py311 env1 Sample.session = Some final1
      /\ main CPython.py311 env2 input2 = Some final2
      /\ nth_error (written (trace final1)) 1 = Some out
      /\ nth_error (written (trace final2)) 0 = Some out.
Proof.
  intros env1 env2 input2.
  assert (H1 : nth_error (lines Sample.session) 1 = Some Sample.line_unknown)
    by (vm_compute; reflexivity).
  assert (H2 : nth_error (lines input2) 0 = Some Sample.line_unknown)
    by (vm_compute; reflexivity).
  split; [reflexivity|]. split; [exact H1|]. split; [exact H2|].
  exact (same_request_same_response CPython.py311 env1 env2
           Sample.request_empty_params Sample.session input2 1 0
           Sample.line_unknown eq_refl H1 H2).
Defined.

Lemma non_object_answered_with_internal_error_witness :
  let st := Sample.start Sample.line_number in
  let fault := AttributeError "'int' object has no attribute 'get'" in
  stdin st <> ""
  /\ json_loads CPython.py311 (fst (readline (stdin st))) = Return (VInt 42)
  /\ is_dict (VInt 42) = false
  /\ handle_request CPython.py311 [] (VInt 42) = Raise fault
  /\ iteration CPython.py311 [] st
     = (Continue, answered CPython.py311 st (internal_error_response fault)).
Proof.
  intros st fault.
  assert (Hline : stdin st <> "") by (vm_compute; discriminate).
  assert (Hloads : json_loads CPython.py311 (fst (readline (stdin st)))
                   = Return (VInt 42)) by (vm_compute; reflexivity).
  split; [exact Hline|]. split; [exact Hloads|]. split; [reflexivity|].
  destruct (non_object_answered_with_internal_error
              CPython.py311 [] st (VInt 42) Hline Hloads eq_refl)
    as (Hraise & Hiter & _).
  split; [exact Hraise|exact Hiter].
Defined.

(** ** Where the claims as stated fail *)

(** C5 as stated: the internal error response would carry the id
    parsed from the line.  The line below decodes to a request with
    id 7, and is answered with id [None]. *)
Lemma handler_fault_id_counterexample :
  let fault := AttributeError "'list' object has no attribute 'get'" in
  json_loads CPython.py311 Sample.line_fault = Return Sample.request_fault
  /\ py_get Sample.request_fault "id" VNone = Return (VInt 7)
  /\ handle_request CPython.py311 [] Sample.request_fault = Raise fault
  /\ response_to CPython.py311 [] Sample.line_fault = internal_error_response fault
  /\ py_get (response_to CPython.py311 [] Sample.line_fault) "id" VNone = Return VNone
  /\ py_get (response_to CPython.py311 [] Sample.line_fault) "id" VNone
     <> py_get Sample.request_fault "id" VNone.
Proof.
  intros fault.
  assert (Hloads : json_loads CPython.py311 Sample.line_fault
                   = Return Sample.request_fault) by (vm_compute; reflexivity).
  assert (Hresponse : response_to CPython.py311 [] Sample.line_fault
                      = internal_error_response fault)
    by (unfold response_to; rewrite Hloads; reflexivity).
  split; [exact Hloads|]. split; [reflexivity|]. split; [reflexivity|].
  split; [exact Hresponse|]. rewrite Hresponse.
  split; [reflexivity|discriminate].
Qed.

(** C6 as stated: params that are not an object would be replaced by
    the empty mapping and the request would not fail.  With a list as
    params the request raises, where the same request with the empty
    mapping is answered. *)
Lemma non_object_params_counterexample :
  json_loads CPython.py311
    (CPython.q "{'id': 1, 'method': 'find_patterns', 'params': [1]}" ++ Sample.nl)
  = Return Sample.request_list_params
  /\ handle_request CPython.py311 [] Sample.request_list_params
     = Raise (AttributeError "'list' object has no attribute 'get'")
  /\ handle_request CPython.py311 [] Sample.request_empty_params
     = Return (success_response (VInt 1)
                 (find_patterns CPython.py311 (CodeAnalyzer_init []) VNone))
  /\ handle_request CPython.py311 [] Sample.request_list_params
     <> handle_request CPython.py311 [] Sample.request_empty_params.
Proof.
  split; [vm_compute; reflexivity|].
  split; [reflexivity|]. split; [reflexivity|]. discriminate.
Qed.

Lemma main_ends_at_end_of_stream_witness :
  main CPython.py311 [] "" = Some {| stdin := ""; trace := [Readline ""] |}
  /\ fst (iteration CPython.py311 [] (Sample.start "")) = Break.
Proof.
  destruct (main_ends_at_end_of_stream CPython.py311 [])
    as (_ & Hbreak & _ & Hempty & _).
  split; [exact Hempty|]. apply Hbreak. reflexivity.
Defined.

(** * Further properties of the server *)

(** ** Lines and sessions *)

Lemma join_all_app (xs ys : list string) :
  join_all (xs ++ ys) = join_all xs ++ join_all ys.
Proof.
  induction xs as [|x xs IH]; [reflexivity|].
  cbn [app join_all]. now rewrite IH, string_app_assoc.
Qed.

Lemma string_app_empty (s : string) : s ++ "" = s.
Proof.
  induction s as [|c s IH]; [reflexivity|]. cbn [append]. now rewrite IH.
Qed.

Lemma join_all_lines (s : string) : join_all (lines s) = s.
Proof.
  induction s as [|c rest IH]; [reflexivity|].
  cbn [lines]. destruct (Ascii.eqb c newline).
  - cbn [join_all append]. now rewrite IH.
  - destruct (lines rest) as [|l ls].
    + cbn [join_all] in *. now rewrite <- IH.
    + cbn [join_all append] in *. now rewrite IH.
Qed.

Lemma lines_nonempty (s : string) : Forall (fun l => l <> "") (lines s).
Proof.
  induction s as [|c rest IH]; [constructor|].
  cbn [lines]. destruct (Ascii.eqb c newline).
  - constructor; [discriminate|exact IH].
  - destruct (lines rest) as [|l ls].
    + constructor; [discriminate|constructor].
    + inversion IH; subst. constructor; [discriminate|assumption].
Qed.

Lemma lines_app_complete (a b : string) :
  complete a = true -> lines (a ++ b) = (lines a ++ lines b)%list.
Proof.
  induction a as [|c a IH]; intros Hcomplete; [reflexivity|].
  cbn [append lines].
  destruct a as [|c' a'].
  - cbn [complete] in Hcomplete. rewrite Hcomplete. reflexivity.
  - change (complete (String c (String c' a'))) with (complete (String c' a'))
      in Hcomplete.
    rewrite (IH Hcomplete).
    destruct (Ascii.eqb c newline); [reflexivity|].
    destruct (lines (String c' a')) as [|l ls] eqn:Hlines; [|reflexivity].
    pose proof (join_all_lines (String c' a')) as Hjoin.
    rewrite Hlines in Hjoin. discriminate.
Qed.

Lemma reads_app (tr1 tr2 : list event) :
  reads (tr1 ++ tr2) = (reads tr1 ++ reads tr2)%list.
Proof.
  induction tr1 as [|[line|data|] tr1 IH]; cbn [reads app];
    [reflexivity| | |]; now rewrite IH.
Qed.

Lemma reads_line_events (py : runtime) (environ : environment) (ls : list string) :
  reads (flat_map (line_events py environ) ls ++ [Readline ""])
  = (ls ++ [""])%list.
Proof.
  induction ls as [|l ls IH]; [reflexivity|].
  cbn [flat_map line_events app reads] in *. now rewrite IH.
Qed.

(** X6.  A session that ends at a line boundary can be followed by
    another: the server answers the concatenated input with the
    answers to the first followed by the answers to the second,
    string for string, so nothing of a session carries over to the
    next. *)
Theorem main_on_concatenated_sessions
    (py : runtime) (environ : environment) (input1 input2 : string) :
  complete input1 = true ->
  exists final1 final2 final,
    main py environ input1 = Some final1
    /\ main py environ input2 = Some final2
    /\ main py environ (input1 ++ input2) = Some final
    /\ written (trace final)
       = (written (trace final1) ++ written (trace final2))%list
    /\ stdout_text final = stdout_text final1 ++ stdout_text final2.
Proof.
  intros Hcomplete. unfold main.
  rewrite !main_loop_lines by (cbn [stdin]; lia).
  do 3 eexists. do 3 (split; [reflexivity|]).
  unfold stdout_text. cbn [stdin trace app].
  rewrite !written_line_events, (lines_app_complete _ _ Hcomplete), map_app.
  split; [reflexivity|apply join_all_app].
Qed.

(** X7.  The server reads its whole input and nothing twice: the
    lines it reads are the lines of the input followed by the empty
    read at the end of the stream, they add up to the input, and no
    read before the last is empty; this holds whatever the lines
    contain, errors included. *)
Theorem main_reads_the_whole_input
    (py : runtime) (environ : environment) (input : string) :
  exists final,
    main py environ input = Some final
    /\ reads (trace final) = (lines input ++ [""])%list
    /\ join_all (reads (trace final)) = input
    /\ Forall (fun line => line <> "") (lines input).
Proof.
  unfold main. rewrite main_loop_lines by (cbn [stdin]; lia).
  eexists. split; [reflexivity|]. cbn [stdin trace app].
  rewrite reads_line_events. split; [reflexivity|]. split.
  - rewrite join_all_app, join_all_lines. cbn [join_all append].
    apply string_app_empty.
  - apply lines_nonempty.
Qed.

(** ** The three methods behind [handle_request] *)

(** X1.  A call of [analyze_complexity] with params [p] (the empty
    mapping when the request has none) is answered with the ["file"]
    entry of [p] as it is, [None] when [p] has none; with the four
    metrics at their fixed values, whatever the file; and with the
    level read from [ANALYSIS_LEVEL], ["basic"] when the variable is
    not set. *)
Theorem analyze_complexity_reports_file_and_level
    (py : runtime) (environ : environment) (items p : dict) :
  dict_get items "method" VNone = VStr "analyze_complexity" ->
  dict_get items "params" (VDict []) = VDict p ->
  exists result,
    handle_request py environ (VDict items)
    = Return (success_response (dict_get items "id" VNone) (VDict result))
    /\ dict_lookup result "file"
       = Some (match dict_lookup p "file" with Some f => f | None => VNone end)
    /\ dict_lookup result "complexity"
       = Some (VDict [ ("cyclomatic", VInt 5); ("cognitive", VInt 8);
                       ("lines_of_code", VInt 150); ("functions", VInt 10) ])
    /\ dict_lookup result "level"
       = Some (VStr (match dict_lookup environ "ANALYSIS_LEVEL" with
                     | Some level => level
                     | None => "basic"
                     end)).
Proof.
  intros Hmethod Hparams.
  rewrite (handle_request_registered py environ items "analyze_complexity"
             analyze_complexity Hmethod eq_refl), Hparams.
  eexists. split; [reflexivity|]. repeat split.
Qed.

(** X2.  The answer to [suggest_refactoring] is the same three
    suggestions for every file and in every environment: two calls
    with the same id get the same response, whatever their params
    hold and whatever the environment is. *)
Theorem suggest_refactoring_ignores_file_and_environment
    (py : runtime) (env1 env2 : environment) (items1 items2 : dict) :
  dict_get items1 "method" VNone = VStr "suggest_refactoring" ->
  dict_get items2 "method" VNone = VStr "suggest_refactoring" ->
  is_dict (dict_get items1 "params" (VDict [])) = true ->
  is_dict (dict_get items2 "params" (VDict [])) = true ->
  dict_get items1 "id" VNone = dict_get items2 "id" VNone ->
  handle_request py env1 (VDict items1) = handle_request py env2 (VDict items2)
  /\ exists a b c,
      handle_request py env1 (VDict items1)
      = Return (success_response (dict_get items1 "id" VNone)
                  (VList [VStr a; VStr b; VStr c])).
Proof.
  intros Hmethod1 Hmethod2 Hparams1 Hparams2 Hid.
  rewrite (handle_request_registered py env1 items1 "suggest_refactoring"
             suggest_refactoring Hmethod1 eq_refl).
  rewrite (handle_request_registered py env2 items2 "suggest_refactoring"
             suggest_refactoring Hmethod2 eq_refl).
  destruct (dict_get items1 "params" (VDict [])); try discriminate.
  destruct (dict_get items2 "params" (VDict [])); try discriminate.
  rewrite Hid. split; [reflexivity|].
  do 3 eexists. reflexivity.
Qed.

(** X3.  A call of [find_patterns] is answered with two patterns,
    located at lines 45 and 120 of the file: the locations are the
    ["file"] entry of the params, formatted as an f-string formats it,
    followed by [":45"] and [":120"].  A string is taken as it is, and
    a request without a file gets the locations ["None:45"] and
    ["None:120"]. *)
Theorem find_patterns_locates_in_file
    (py : runtime) (environ : environment) (items p : dict) :
  dict_get items "method" VNone = VStr "find_patterns" ->
  dict_get items "params" (VDict []) = VDict p ->
  exists first second,
    handle_request py environ (VDict items)
    = Return (success_response (dict_get items "id" VNone)
                (VList [VDict first; VDict second]))
    /\ dict_lookup first "location"
       = Some (VStr (py_str py (dict_get p "file" VNone) ++ ":45"))
    /\ dict_lookup second "location"
       = Some (VStr (py_str py (dict_get p "file" VNone) ++ ":120"))
    /\ (forall path,
          dict_lookup p "file" = Some (VStr path) ->
          dict_lookup first "location" = Some (VStr (path ++ ":45"))
          /\ dict_lookup second "location" = Some (VStr (path ++ ":120")))
    /\ (dict_lookup p "file" = None ->
        dict_lookup first "location" = Some (VStr "None:45")
        /\ dict_lookup second "location" = Some (VStr "None:120")).
Proof.
  intros Hmethod Hparams.
  rewrite (handle_request_registered py environ items "find_patterns"
             (find_patterns py) Hmethod eq_refl), Hparams.
  do 2 eexists. split; [reflexivity|].
  cbn [dict_lookup String.eqb Ascii.eqb Bool.eqb].
  split; [reflexivity|]. split; [reflexivity|]. split.
  - intros path Hfile. unfold dict_get. rewrite Hfile. split; reflexivity.
  - intros Hfile. unfold dict_get. rewrite Hfile. split; reflexivity.
Qed.

(** ** What [handle_request] reads and when it fails *)

(** X4.  [handle_request] raises in two cases and no other: the
    request is not an object, or its method is one of the three
    registered ones and its params are there and are not an object.
    The exception is the [AttributeError] of the [get] that failed. *)
Theorem handle_request_raises_exactly_when
    (py : runtime) (environ : environment) (request : value) :
  ((exists e, handle_request py environ request = Raise e) <->
   is_dict request = false
   \/ exists items,
       request = VDict items
       /\ registered (dict_get items "method" VNone) = true
       /\ is_dict (dict_get items "params" (VDict [])) = false)
  /\ forall e,
      handle_request py environ request = Raise e ->
      e = AttributeError
            ("'" ++ type_name
                      (match request with
                       | VDict items => dict_get items "params" (VDict [])
                       | _ => request
                       end)
                 ++ "' object has no attribute 'get'").
Proof.
  set (fault :=
         AttributeError
           ("'" ++ type_name
                     (match request with
                      | VDict items => dict_get items "params" (VDict [])
                      | _ => request
                      end)
                ++ "' object has no attribute 'get'")).
  set (failing :=
         is_dict request = false
         \/ exists items,
             request = VDict items
             /\ registered (dict_get items "method" VNone) = true
             /\ is_dict (dict_get items "params" (VDict [])) = false).
  assert (Hcases :
            (failing /\ handle_request py environ request = Raise fault)
            \/ (~ failing /\ exists r, handle_request py environ request = Return r)).
  { subst fault failing.
    destruct request as [ | | | | | | items ];
      try (left; split; [left; reflexivity|reflexivity]).
    destruct (registered (dict_get items "method" VNone)) eqn:Hreg.
    - destruct (proj1 (registered_lookup py _) Hreg)
        as (name & handler & Hmethod & Hlookup).
      rewrite (handle_request_registered py environ items name handler
                 Hmethod Hlookup).
      destruct (dict_get items "params" (VDict [])) eqn:Hparams;
        try (left; split;
             [right; exists items; repeat split; [exact Hreg|now rewrite Hparams]
             |reflexivity]).
      right. split; [|eexists; reflexivity].
      intros [Hno|(items' & Heq & _ & Hno)]; [discriminate|].
      injection Heq as <-. rewrite Hparams in Hno. discriminate.
    - rewrite (handle_request_unregistered py environ items Hreg).
      right. split; [|eexists; reflexivity].
      intros [Hno|(items' & Heq & Hyes & _)]; [discriminate|].
      injection Heq as <-. congruence. }
  destruct Hcases as [[Hfailing Hraise]|[Hfine [r Hreturn]]].
  - split.
    + split; [intros _; exact Hfailing|intros _; eexists; exact Hraise].
    + intros e He. rewrite Hraise in He. now injection He as <-.
  - split.
    + split; [|intros Hfailing; contradiction].
      intros [e He]. rewrite Hreturn in He. discriminate.
    + intros e He. rewrite Hreturn in He. discriminate.
Qed.

(** X5.  [handle_request] reads the ["method"], ["params"] and ["id"]
    fields of a request and nothing else: two request objects that
    agree on the three get the same outcome, whatever their
    ["jsonrpc"] field says, whatever other fields they have, and in
    whatever order the fields come. *)
Theorem handle_request_reads_three_fields
    (py : runtime) (environ : environment) (items1 items2 : dict) :
  dict_lookup items1 "method" = dict_lookup items2 "method" ->
  dict_lookup items1 "params" = dict_lookup items2 "params" ->
  dict_lookup items1 "id" = dict_lookup items2 "id" ->
  handle_request py environ (VDict items1) = handle_request py environ (VDict items2).
Proof.
  intros Hmethod Hparams Hid.
  assert (Hget : forall key default,
             dict_lookup items1 key = dict_lookup items2 key ->
             dict_get items1 key default = dict_get items2 key default)
    by (intros key default Hkey; unfold dict_get; now rewrite Hkey).
  destruct (registered (dict_get items1 "method" VNone)) eqn:Hreg.
  - destruct (proj1 (registered_lookup py _) Hreg)
      as (name & handler & Hname & Hlookup).
    rewrite (handle_request_registered py environ items1 name handler Hname Hlookup).
    rewrite (Hget "method" VNone Hmethod) in Hname.
    rewrite (handle_request_registered py environ items2 name handler Hname Hlookup).
    now rewrite (Hget "params" (VDict []) Hparams), (Hget "id" VNone Hid).
  - rewrite (handle_request_unregistered py environ items1 Hreg).
    rewrite (Hget "method" VNone Hmethod) in Hreg.
    rewrite (handle_request_unregistered py environ items2 Hreg).
    now rewrite (Hget "method" VNone Hmethod), (Hget "id" VNone Hid).
Qed.

(** X10.  The environment reaches the answers to [analyze_complexity]
    only: a request for any other method, known or not, and a request
    that is not an object, gets the same outcome in every
    environment. *)
Theorem environment_only_reaches_analyze_complexity
    (py : runtime) (env1 env2 : environment) (request : value) :
  py_eq_str (method_of request) "analyze_complexity" = false ->
  handle_request py env1 request = handle_request py env2 request.
Proof.
  intros Hmethod.
  destruct request as [ | | | | | | items ]; try reflexivity.
  cbn [method_of] in Hmethod.
  unfold handle_request. cbn [py_get bind]. rewrite Hmethod. reflexivity.
Qed.

(** ** What the loop writes *)

(** The three shapes a response takes. *)
Lemma response_to_cases (py : runtime) (environ : environment) (line : string) :
  (exists request items result,
      json_loads py line = Return request
      /\ request = VDict items
      /\ handle_request py environ request
         = Return (success_response (dict_get items "id" VNone) result)
      /\ response_to py environ line
         = success_response (dict_get items "id" VNone) result)
  \/ (exists msg,
        json_loads py line = Raise (JSONDecodeError msg)
        /\ response_to py environ line = parse_error_response (JSONDecodeError msg))
  \/ (exists e,
        is_JSONDecodeError e = false
        /\ (json_loads py line = Raise e
            \/ exists request,
                json_loads py line = Return request
                /\ handle_request py environ request = Raise e)
        /\ response_to py environ line = internal_error_response e).
Proof.
  unfold response_to.
  destruct (json_loads py line) as [request|e] eqn:Hloads.
  - destruct (handle_request py environ request) as [response|e] eqn:Hhandle.
    + left.
      destruct (handle_request_returns py environ request response Hhandle)
        as (items & result & -> & ->).
      exists (VDict items), items, result. repeat split. exact Hhandle.
    + right. right. exists e.
      destruct (handle_request_raises py environ request e Hhandle) as [msg ->].
      split; [reflexivity|]. split; [|reflexivity].
      right. exists request. now split.
  - destruct e as [msg|msg|name msg].
    + right. left. exists msg. now split.
    + right. right. exists (AttributeError msg).
      split; [reflexivity|]. split; [now left|reflexivity].
    + right. right. exists (OtherException name msg).
      split; [reflexivity|]. split; [now left|reflexivity].
Qed.

(** X8.  Whatever the line, the object written for it is an envelope
    of exactly three entries, in this order: ["jsonrpc"] with the
    string ["2.0"], ["id"], and either ["result"] or ["error"]; in an
    ["error"] envelope the id is [None] and the error holds a code and
    a message, in this order. *)
Theorem every_response_is_a_jsonrpc_envelope
    (py : runtime) (environ : environment) (st : process) :
  stdin st <> "" ->
  exists id key payload,
    iteration py environ st
    = (Continue,
       answered py st
         (VDict [ ("jsonrpc", VStr "2.0"); ("id", id); (key, payload) ]))
    /\ (key = "result"
        \/ key = "error"
           /\ id = VNone
           /\ exists code message,
               payload = VDict [ ("code", VInt code); ("message", VStr message) ]).
Proof.
  intros Hline. rewrite iteration_answered by exact Hline.
  destruct (response_to_cases py environ (fst (readline (stdin st))))
    as [(request & items & result & _ & _ & _ & ->)
       |[(msg & _ & ->)|(e & _ & _ & ->)]].
  - do 3 eexists. split; [reflexivity|]. now left.
  - do 3 eexists. split; [reflexivity|]. right. repeat split. eauto.
  - do 3 eexists. split; [reflexivity|]. right. repeat split. eauto.
Qed.

(** X9.  The error code of a response tells what failed, and there
    are two codes only: the code is -32700 exactly when [json.loads]
    raised a [JSONDecodeError] on the line, -32603 exactly when
    [json.loads] raised something else or [handle_request] raised, and
    the response has no error code exactly when [handle_request]
    returned; in particular an unknown method gives no error code. *)
Theorem error_code_tells_what_failed
    (py : runtime) (environ : environment) (line : string) :
  (error_code (response_to py environ line) = Some (VInt (-32700)) <->
   exists msg, json_loads py line = Raise (JSONDecodeError msg))
  /\ (error_code (response_to py environ line) = Some (VInt (-32603)) <->
      (exists e, json_loads py line = Raise e /\ is_JSONDecodeError e = false)
      \/ exists request e,
          json_loads py line = Return request
          /\ handle_request py environ request = Raise e)
  /\ (error_code (response_to py environ line) = None <->
      exists request response,
        json_loads py line = Return request
        /\ handle_request py environ request = Return response)
  /\ (forall code,
        error_code (response_to py environ line) = Some code ->
        code = VInt (-32700) \/ code = VInt (-32603)).
Proof.
  destruct (response_to_cases py environ line)
    as [(request & items & result & Hloads & -> & Hhandle & ->)
       |[(msg & Hloads & ->)|(e & He & [Hloads|(request & Hloads & Hhandle)] & ->)]];
    cbn [error_code success_response parse_error_response internal_error_response
         dict_lookup String.eqb Ascii.eqb Bool.eqb].
  - split; [|split; [|split]].
    + split; [discriminate|]. intros [msg Hraise]. congruence.
    + split; [discriminate|].
      intros [(e & Hraise & _)|(request & e & Hreturn & Hraise)]; [congruence|].
      rewrite Hloads in Hreturn. injection Hreturn as <-. congruence.
    + split; [|reflexivity]. intros _. eauto.
    + discriminate.
  - split; [|split; [|split]].
    + split; [|reflexivity]. intros _. eauto.
    + split; [discriminate|].
      intros [(e & Hraise & He)|(request & e & Hreturn & _)]; [|congruence].
      rewrite Hloads in Hraise. injection Hraise as <-. discriminate.
    + split; [discriminate|]. intros (request & response & Hreturn & _). congruence.
    + intros code [= <-]. now left.
  - split; [|split; [|split]].
    + split; [discriminate|]. intros [msg Hraise].
      rewrite Hloads in Hraise. injection Hraise as ->. discriminate.
    + split; [|reflexivity]. intros _. left. eauto.
    + split; [discriminate|]. intros (request & response & Hreturn & _). congruence.
    + intros code [= <-]. now right.
  - split; [|split; [|split]].
    + split; [discriminate|]. intros [msg Hraise]. congruence.
    + split; [|reflexivity]. intros _. right. eauto.
    + split; [discriminate|].
      intros (request' & response & Hreturn & Hreturn').
      rewrite Hloads in Hreturn. injection Hreturn as <-. congruence.
    + intros code [= <-]. now right.
Qed.

(** X11.  The server never makes up an id: when the response to a
    line carries an id other than [None], the line decoded to a
    request object and the id is the one that object holds. *)
Theorem response_id_comes_from_the_request
    (py : runtime) (environ : environment) (line : string) (id : value) :
  py_get (response_to py environ line) "id" VNone = Return id ->
  id <> VNone ->
  exists items,
    json_loads py line = Return (VDict items)
    /\ dict_lookup items "id" = Some id.
Proof.
  intros Hid Hsome.
  destruct (response_to_cases py environ line)
    as [(request & items & result & Hloads & -> & _ & Hresponse)
       |[(msg & _ & Hresponse)|(e & _ & _ & Hresponse)]];
    rewrite Hresponse in Hid; cbn in Hid; injection Hid as <-;
    try congruence.
  exists items. split; [exact Hloads|].
  unfold dict_get in *. destruct (dict_lookup items "id"); congruence.
Qed.

(** ** Instances of the further properties *)

Lemma analyze_complexity_reports_file_and_level_witness :
  let environ : environment := [ ("ANALYSIS_LEVEL", "deep") ] in
  let p : dict := [ ("file", VStr "a.py") ] in
  dict_get Requests.complexity_call "method" VNone = VStr "analyze_complexity"
  /\ dict_get Requests.complexity_call "params" (VDict []) = VDict p
  /\ exists result,
      handle_request CPython.py311 environ (VDict Requests.complexity_call)
      = Return (success_response (VInt 1) (VDict result))
      /\ dict_lookup result "file" = Some (VStr "a.py")
      /\ dict_lookup result "complexity"
         = Some (VDict [ ("cyclomatic", VInt 5); ("cognitive", VInt 8);
                         ("lines_of_code", VInt 150); ("functions", VInt 10) ])
      /\ dict_lookup result "level" = Some (VStr "deep").
Proof.
  intros environ p. split; [reflexivity|]. split; [reflexivity|].
  exact (analyze_complexity_reports_file_and_level
           CPython.py311 environ Requests.complexity_call p eq_refl eq_refl).
Defined.

Lemma suggest_refactoring_ignores_file_and_environment_witness :
  let env1 : environment := [] in
  let env2 : environment := [ ("ANALYSIS_LEVEL", "deep") ] in
  dict_get Requests.refactoring_call "method" VNone = VStr "suggest_refactoring"
  /\ dict_get Requests.refactoring_call_bare "method" VNone
     = VStr "suggest_refactoring"
  /\ is_dict (dict_get Requests.refactoring_call "params" (VDict [])) = true
  /\ is_dict (dict_get Requests.refactoring_call_bare "params" (VDict [])) = true
  /\ dict_get Requests.refactoring_call "id" VNone
     = dict_get Requests.refactoring_call_bare "id" VNone
  /\ handle_request CPython.py311 env1 (VDict Requests.refactoring_call)
     = handle_request CPython.py311 env2 (VDict Requests.refactoring_call_bare).
Proof.
  intros env1 env2. do 5 (split; [reflexivity|]).
  exact (proj1 (suggest_refactoring_ignores_file_and_environment
                  CPython.py311 env1 env2
                  Requests.refactoring_call Requests.refactoring_call_bare
                  eq_refl eq_refl eq_refl eq_refl eq_refl)).
Defined.

Lemma find_patterns_locates_in_file_witness :
  let p : dict := [ ("file", VStr "src/app.py") ] in
  dict_get Requests.patterns_call "method" VNone = VStr "find_patterns"
  /\ dict_get Requests.patterns_call "params" (VDict []) = VDict p
  /\ exists first second,
      handle_request CPython.py311 [] (VDict Requests.patterns_call)
      = Return (success_response (VInt 3) (VList [VDict first; VDict second]))
      /\ dict_lookup first "location" = Some (VStr "src/app.py:45")
      /\ dict_lookup second "location" = Some (VStr "src/app.py:120").
Proof.
  intros p. split; [reflexivity|]. split; [reflexivity|].
  destruct (find_patterns_locates_in_file
              CPython.py311 [] Requests.patterns_call p eq_refl eq_refl)
    as (first & second & Hreturn & _ & _ & Hpath & _).
  exists first, second. split; [exact Hreturn|].
  exact (Hpath "src/app.py" eq_refl).
Defined.

Lemma handle_request_reads_three_fields_witness :
  dict_lookup Requests.complexity_call "method"
  = dict_lookup Requests.complexity_call_variant "method"
  /\ dict_lookup Requests.complexity_call "params"
     = dict_lookup Requests.complexity_call_variant "params"
  /\ dict_lookup Requests.complexity_call "id"
     = dict_lookup Requests.complexity_call_variant "id"
  /\ handle_request CPython.py311 [] (VDict Requests.complexity_call)
     = handle_request CPython.py311 [] (VDict Requests.complexity_call_variant).
Proof.
  do 3 (split; [reflexivity|]).
  exact (handle_request_reads_three_fields CPython.py311 []
           Requests.complexity_call Requests.complexity_call_variant
           eq_refl eq_refl eq_refl).
Defined.

Lemma environment_only_reaches_analyze_complexity_witness :
  let env1 : environment := [] in
  let env2 : environment := [ ("ANALYSIS_LEVEL", "deep") ] in
  py_eq_str (method_of (VDict Requests.patterns_call)) "analyze_complexity" = false
  /\ handle_request CPython.py311 env1 (VDict Requests.patterns_call)
     = handle_request CPython.py311 env2 (VDict Requests.patterns_call).
Proof.
  intros env1 env2. split; [reflexivity|].
  exact (environment_only_reaches_analyze_complexity CPython.py311 env1 env2
           (VDict Requests.patterns_call) eq_refl).
Defined.

Lemma main_on_concatenated_sessions_witness :
  let input1 := Sample.line_malformed ++ Sample.line_fault in
  let input2 := Sample.line_unknown in
  complete input1 = true
  /\ exists final1 final2 final,
      main CPython.py311 [] input1 = Some final1
      /\ main CPython.py311 [] input2 = Some final2
      /\ main CPython.py311 [] (input1 ++ input2) = Some final
      /\ written (trace final)
         = (written (trace final1) ++ written (trace final2))%list
      /\ stdout_text final = stdout_text final1 ++ stdout_text final2.
Proof.
  intros input1 input2.
  assert (Hcomplete : complete input1 = true) by (vm_compute; reflexivity).
  split; [exact Hcomplete|].
  exact (main_on_concatenated_sessions CPython.py311 [] input1 input2 Hcomplete).
Defined.

Lemma every_response_is_a_jsonrpc_envelope_witness :
  let st := Sample.start Sample.session in
  stdin st <> ""
  /\ exists id key payload,
      iteration CPython.py311 [] st
      = (Continue,
         answered CPython.py311 st
           (VDict [ ("jsonrpc", VStr "2.0"); ("id", id); (key, payload) ]))
      /\ (key = "result"
          \/ key = "error"
             /\ id = VNone
             /\ exists code message,
                 payload = VDict [ ("code", VInt code); ("message", VStr message) ]).
Proof.
  intros st.
  assert (Hline : stdin st <> "") by (vm_compute; discriminate).
  split; [exact Hline|].
  exact (every_response_is_a_jsonrpc_envelope CPython.py311 [] st Hline).
Defined.

Lemma response_id_comes_from_the_request_witness :
  py_get (response_to CPython.py311 [] Sample.line_unknown) "id" VNone
  = Return (VInt 2)
  /\ VInt 2 <> VNone
  /\ exists items,
      json_loads CPython.py311 Sample.line_unknown = Return (VDict items)
      /\ dict_lookup items "id" = Some (VInt 2).
Proof.
  assert (Hid : py_get (response_to CPython.py311 [] Sample.line_unknown) "id" VNone
                = Return (VInt 2)) by (vm_compute; reflexivity).
  assert (Hsome : VInt 2 <> VNone) by discriminate.
  split; [exact Hid|]. split; [exact Hsome|].
  exact (response_id_comes_from_the_request CPython.py311 []
           Sample.line_unknown (VInt 2) Hid Hsome).
Defined.

(** C2 as stated: every line that is not valid JSON would be answered
    with the parse error envelope.  No JSON value begins with [N], so
    the line [NaN] is not JSON; [json.loads] decodes it to a float all
    the same, and the line is answered with the internal error
    envelope, code -32603.  So is a line on which [json.loads] fails
    with another exception than [JSONDecodeError]. *)
Lemma invalid_json_answered_otherwise_counterexample :
  RFC8259.begins_value Lines.nan = false
  /\ json_loads CPython.py311 Lines.nan = Return (VFloat PrimFloat.nan)
  /\ response_to CPython.py311 [] Lines.nan
     = internal_error_response
         (AttributeError "'float' object has no attribute 'get'")
  /\ error_code (response_to CPython.py311 [] Lines.nan) = Some (VInt (-32603))
  /\ error_code (response_to CPython.py311 [] Lines.nan) <> Some (VInt (-32700))
  /\ (exists msg,
        json_loads CPython.py311 Lines.digits
        = Raise (OtherException "ValueError" msg))
  /\ error_code (response_to CPython.py311 [] Lines.digits) = Some (VInt (-32603))
  /\ error_code (response_to CPython.py311 [] Lines.digits) <> Some (VInt (-32700)).
Proof.
  assert (Hnan : json_loads CPython.py311 Lines.nan = Return (VFloat PrimFloat.nan))
    by (vm_compute; reflexivity).
  assert (Hresponse :
            response_to CPython.py311 [] Lines.nan
            = internal_error_response
                (AttributeError "'float' object has no attribute 'get'"))
    by (unfold response_to; rewrite Hnan; reflexivity).
  assert (Hdigits : exists msg,
            json_loads CPython.py311 Lines.digits
            = Raise (OtherException "ValueError" msg))
    by (eexists; vm_compute; reflexivity).
  assert (Hcode : error_code (response_to CPython.py311 [] Lines.digits)
                  = Some (VInt (-32603))).
  { destruct Hdigits as [msg Hraise].
    unfold response_to. rewrite Hraise. reflexivity. }
  split; [reflexivity|]. split; [exact Hnan|]. split; [exact Hresponse|].
  rewrite Hresponse, Hcode.
  split; [reflexivity|]. split; [discriminate|]. split; [exact Hdigits|].
  split; [reflexivity|discriminate].
Qed.
